(** * Stock analysis engine: indicators, signal scan and risk figures

    A shallow embedding of [analysis_engine/indicators.py],
    [analysis_engine/risk.py], [analysis_engine/model.py] and
    [analysis_engine/analyzer.py].

    Numbers.  The program computes on IEEE doubles inside pandas/numpy.
    The embedding keeps what the program's control flow depends on: the
    three special values (NaN and the two infinities), the rule that
    every ordered comparison with NaN is false, and division by zero
    yielding an infinity or NaN instead of raising.  Finite values are
    exact rationals, kept in lowest terms; rounding, overflow and the
    sign of zero are not modelled. *)

From Stdlib Require Import QArith Qabs Qminmax ZArith List Lia Lqa Sorted.
From stdpp Require Import gmap strings list fin_maps.

Open Scope Q_scope.

(** ** Floating-point values *)

Module Float.

Inductive fl : Type :=
| Fin (q : Q)
| PInf
| NInf
| NaN.

Definition is_nan (a : fl) : bool :=
  match a with NaN => true | _ => false end.

Definition is_finite (a : fl) : bool :=
  match a with Fin _ => true | _ => false end.

(** Sign of a value: 1, 0 or -1; NaN has sign 0 here and is always
    filtered out before the sign is consulted. *)
Definition fsign (a : fl) : Z :=
  match a with
  | Fin q => Z.sgn (Qnum q)
  | PInf => 1
  | NInf => -1
  | NaN => 0
  end.

Definition inf_of_sign (s : Z) : fl :=
  match s with
  | Z0 => NaN
  | Zpos _ => PInf
  | Zneg _ => NInf
  end.

Definition fneg (a : fl) : fl :=
  match a with
  | Fin q => Fin (Qred (- q))
  | PInf => NInf
  | NInf => PInf
  | NaN => NaN
  end.

Definition fadd (a b : fl) : fl :=
  match a, b with
  | NaN, _ | _, NaN => NaN
  | Fin x, Fin y => Fin (Qred (x + y))
  | PInf, NInf | NInf, PInf => NaN
  | PInf, _ | _, PInf => PInf
  | NInf, _ | _, NInf => NInf
  end.

Definition fsub (a b : fl) : fl :=
  match a, b with
  | NaN, _ | _, NaN => NaN
  | Fin x, Fin y => Fin (Qred (x - y))
  | PInf, PInf | NInf, NInf => NaN
  | PInf, _ | _, NInf => PInf
  | NInf, _ | _, PInf => NInf
  end.

Definition fmul (a b : fl) : fl :=
  match a, b with
  | NaN, _ | _, NaN => NaN
  | Fin x, Fin y => Fin (Qred (x * y))
  | _, _ => inf_of_sign (fsign a * fsign b)
  end.

(** Division never raises: a finite non-zero value over zero is an
    infinity, zero over zero and infinity over infinity are NaN. *)
Definition fdiv (a b : fl) : fl :=
  match a, b with
  | NaN, _ | _, NaN => NaN
  | Fin x, Fin y =>
      if Qeq_bool y 0 then inf_of_sign (fsign a) else Fin (Qred (x / y))
  | Fin _, _ => Fin 0
  | _, Fin y => if Qeq_bool y 0 then a else inf_of_sign (fsign a * fsign b)
  | _, _ => NaN
  end.

Definition fabs (a : fl) : fl :=
  match a with
  | Fin q => Fin (Qred (Qabs q))
  | PInf | NInf => PInf
  | NaN => NaN
  end.

(** Three-way comparison; [None] when one side is NaN (unordered). *)
Definition fcmp (a b : fl) : option comparison :=
  match a, b with
  | NaN, _ | _, NaN => None
  | Fin x, Fin y => Some (x ?= y)
  | PInf, PInf | NInf, NInf => Some Eq
  | NInf, _ | _, PInf => Some Lt
  | PInf, _ | _, NInf => Some Gt
  end.

Definition flt (a b : fl) : bool :=
  match fcmp a b with Some Lt => true | _ => false end.
Definition fgt (a b : fl) : bool :=
  match fcmp a b with Some Gt => true | _ => false end.
Definition fle (a b : fl) : bool :=
  match fcmp a b with Some Lt | Some Eq => true | _ => false end.
Definition fge (a b : fl) : bool :=
  match fcmp a b with Some Gt | Some Eq => true | _ => false end.
Definition feqb (a b : fl) : bool :=
  match fcmp a b with Some Eq => true | _ => false end.

(** Python's builtin [min(a, b)]: the first argument unless the second
    is strictly smaller. *)
Definition py_min (a b : fl) : fl := if flt b a then b else a.

(** [np.maximum]: NaN if either side is NaN. *)
Definition np_maximum (a b : fl) : fl :=
  match a, b with
  | NaN, _ | _, NaN => NaN
  | _, _ => if flt a b then b else a
  end.

(** Maximum and minimum that skip NaN, as pandas reductions do. *)
Definition nanmax (a b : fl) : fl :=
  match a, b with
  | NaN, _ => b
  | _, NaN => a
  | _, _ => if flt a b then b else a
  end.

Definition nanmin (a b : fl) : fl :=
  match a, b with
  | NaN, _ => b
  | _, NaN => a
  | _, _ => if flt b a then b else a
  end.

End Float.
Import Float.

(** ** pandas Series *)

Module Series.

(** A Series is the list of its values; the index is kept by the frame. *)
Abbreviation Series := (list fl).

Definition binop (f : fl -> fl -> fl) (a b : Series) : Series := zip_with f a b.

(** [s.shift()]: one position down, NaN at the front. *)
Definition shift (s : Series) : Series :=
  match s with
  | [] => []
  | _ => NaN :: removelast s
  end.

(** [s.diff()] is [s - s.shift()]. *)
Definition diff (s : Series) : Series := binop fsub s (shift s).

(** [s.pct_change()]: [s / s.shift() - 1]. *)
Definition pct_change (s : Series) : Series :=
  (fun x => fsub x (Fin 1)) <$> binop fdiv s (shift s).

(** [s.where(cond, other)]: keep the value where [cond] holds. *)
Definition where_ (cond : fl -> bool) (other : fl) (s : Series) : Series :=
  (fun x => if cond x then x else other) <$> s.

(** [s.replace(old, new)]. *)
Definition replace (old new : fl) (s : Series) : Series :=
  (fun x => if feqb x old then new else x) <$> s.

(** The observations (non-NaN values) of a window. *)
Definition observations (w : Series) : Series :=
  filter (fun x => is_nan x = false) w.

Definition fsum (w : Series) : fl := foldl fadd (Fin 0) w.

Definition of_nat (n : nat) : fl := Fin (inject_Z (Z.of_nat n)).

(** Mean of the observations of a window. *)
Definition mean (w : Series) : fl :=
  let obs := observations w in fdiv (fsum obs) (of_nat (length obs)).

(** The trailing window of [window] values ending at position [i]. *)
Definition window_at (window : nat) (s : Series) (i : nat) : Series :=
  drop (S i - window) (take (S i) s).

(** [s.rolling(window=w, min_periods=m).agg()]: at every position the
    aggregate of the observations in the trailing window, NaN when the
    window holds fewer than [m] observations (and always NaN when it
    holds none). *)
Definition rolling (window min_periods : nat) (agg : Series -> fl) (s : Series)
  : Series :=
  (fun i =>
     let obs := observations (window_at window s i) in
     if (Nat.ltb (length obs) min_periods || Nat.eqb (length obs) 0)%bool
     then NaN else agg obs) <$> seq 0 (length s).

Definition smax (w : Series) : fl := foldl nanmax NaN w.
Definition smin (w : Series) : fl := foldl nanmin NaN w.

(** [s.expanding().max()]: running maximum of the observations so far. *)
Fixpoint expanding_max_from (acc : fl) (s : Series) : Series :=
  match s with
  | [] => []
  | x :: t => let m := nanmax acc x in m :: expanding_max_from m t
  end.

Definition expanding_max (s : Series) : Series := expanding_max_from NaN s.

End Series.
Import Series.

(** ** Exceptions *)

Module Exn.

Inductive exn : Type :=
| ValueError (msg : string)
| KeyError (key : string)
| IndexError.

Inductive result (A : Type) : Type :=
| Ok (a : A)
| Raise (e : exn).
Arguments Ok {A} a.
Arguments Raise {A} e.

#[export] Instance result_bind : MBind result := fun A B f m =>
  match m with
  | Ok a => f a
  | Raise e => Raise e
  end.

Definition is_ok {A} (r : result A) : bool :=
  match r with Ok _ => true | Raise _ => false end.

End Exn.
Import Exn.

(** ** Numeric library functions

    Square root and logarithm are library calls on doubles ([np.sqrt],
    [np.log], and the root inside pandas' [std]).  They are taken as an
    interface; every statement below holds for any implementation. *)

Class Libm : Type := {
  sqrtQ : Q -> Q;
  logQ : Q -> Q
}.

Section LibmLift.
Context `{Libm}.

Definition np_sqrt (a : fl) : fl :=
  match a with
  | Fin q => if Qle_bool 0 q then Fin (Qred (sqrtQ q)) else NaN
  | PInf => PInf
  | NInf | NaN => NaN
  end.

Definition np_log (a : fl) : fl :=
  match a with
  | Fin q =>
      if Qeq_bool q 0 then NInf
      else if Qle_bool 0 q then Fin (Qred (logQ q)) else NaN
  | PInf => PInf
  | NInf | NaN => NaN
  end.

End LibmLift.

(** ** Rolling and exponentially weighted windows with their argument
       checks *)

Module Window.

(** Mean absolute deviation of a window from its own mean (the lambda
    handed to [rolling().apply] by the CCI). *)
Definition mean_abs_dev (w : Series) : fl :=
  let m := mean w in mean ((fun x => fabs (fsub x m)) <$> w).

(** Sample variance (ddof = 1) of the observations; NaN below two. *)
Definition var (w : Series) : fl :=
  let obs := observations w in
  let m := mean obs in
  if Nat.leb (length obs) 1 then NaN
  else fdiv (fsum ((fun x => fmul (fsub x m) (fsub x m)) <$> obs))
            (of_nat (length obs - 1)).

Definition std `{Libm} (w : Series) : fl := np_sqrt (var w).

(** [s.rolling(window=w, min_periods=m)]: pandas validates the arguments
    when the window object is built.  [min_periods = None] stands for the
    window size. *)
Definition rolling_checked (window : Z) (min_periods : option Z)
  (agg : Series -> fl) (s : Series) : result Series :=
  _ ← match min_periods with
      | Some minp =>
          if (minp <? 0)%Z then Raise (ValueError "min_periods must be >= 0")
          else if (window <? minp)%Z
               then Raise (ValueError "min_periods must be <= window")
               else Ok tt
      | None => Ok tt
      end;
  if (window <? 0)%Z then Raise (ValueError "window must be an integer 0 or greater")
  else Ok (rolling (Z.to_nat window) (Z.to_nat (default window min_periods)) agg s).

Definition rolling_mean (window : Z) (min_periods : option Z) := rolling_checked window min_periods mean.
Definition rolling_min (window : Z) := rolling_checked window None smin.
Definition rolling_max (window : Z) := rolling_checked window None smax.
Definition rolling_std `{Libm} (window : Z) := rolling_checked window None std.

(** The recurrence of [s.ewm(span=..).mean()] with [adjust=True] and
    [ignore_na=False]: [weighted] is the running weighted average and
    [old_wt] the weight it carries. *)
Fixpoint ewm_loop (factor : Q) (weighted : fl) (old_wt : Q) (s : Series) : Series :=
  match s with
  | [] => []
  | cur :: t =>
      let is_observation := negb (is_nan cur) in
      let '(weighted', old_wt') :=
        if negb (is_nan weighted) then
          let old_wt1 := Qred (old_wt * factor) in
          if is_observation then
            (if negb (feqb weighted cur)
             then fdiv (fadd (fmul (Fin old_wt1) weighted) cur) (Fin (Qred (old_wt1 + 1)))
             else weighted,
             Qred (old_wt1 + 1))
          else (weighted, old_wt1)
        else if is_observation then (cur, old_wt)
        else (weighted, old_wt) in
      weighted' :: ewm_loop factor weighted' old_wt' t
  end.

(** The weighted averages for a decay [alpha], seeded with the first
    value. *)
Definition ewm_adjusted (alpha : Q) (s : Series) : Series :=
  match s with
  | [] => []
  | x :: t => x :: ewm_loop (1 - alpha) x 1 t
  end.

Definition ewm_mean (span : Z) (s : Series) : result Series :=
  if (span <? 1)%Z then Raise (ValueError "span must satisfy: span >= 1")
  else Ok (ewm_adjusted (2 / (inject_Z span + 1)) s).

End Window.
Import Window.

(** ** indicators.py *)

Module TechnicalIndicators.

Definition scale (k : Q) (s : Series) : Series := fmul (Fin k) <$> s.

(** [rsi] *)
Definition rsi (prices : Series) (window : Z) : result Series :=
  let delta := diff prices in
  gain ← rolling_mean window (Some 1%Z) (where_ (fun d => fgt d (Fin 0)) (Fin 0) delta);
  loss ← rolling_mean window (Some 1%Z)
           (fneg <$> where_ (fun d => flt d (Fin 0)) (Fin 0) delta);
  let rs := binop fdiv gain (replace (Fin 0) PInf loss) in
  let rsi := (fun x => fsub (Fin 100) (fdiv (Fin 100) (fadd (Fin 1) x))) <$> rs in
  Ok rsi.

(** [macd] *)
Definition macd (prices : Series) (fast slow signal : Z)
  : result (Series * Series * Series) :=
  exp1 ← ewm_mean fast prices;
  exp2 ← ewm_mean slow prices;
  let macd_line := binop fsub exp1 exp2 in
  signal_line ← ewm_mean signal macd_line;
  let histogram := binop fsub macd_line signal_line in
  Ok (macd_line, signal_line, histogram).

(** [bollinger_bands] *)
Definition bollinger_bands `{Libm} (prices : Series) (window : Z) (std_dev : Q)
  : result (Series * Series * Series) :=
  sma ← rolling_mean window None prices;
  std ← rolling_std window prices;
  let upper_band := binop fadd sma ((fun x => fmul x (Fin std_dev)) <$> std) in
  let lower_band := binop fsub sma ((fun x => fmul x (Fin std_dev)) <$> std) in
  Ok (upper_band, sma, lower_band).

(** [stochastic] *)
Definition stochastic (high low close : Series) (k_window d_window : Z)
  : result (Series * Series) :=
  lowest_low ← rolling_min k_window low;
  highest_high ← rolling_max k_window high;
  let k_percent :=
    binop fdiv (scale 100 (binop fsub close lowest_low))
               (binop fsub highest_high lowest_low) in
  d_percent ← rolling_mean d_window None k_percent;
  Ok (k_percent, d_percent).

(** [williams_r] *)
Definition williams_r (high low close : Series) (window : Z) : result Series :=
  highest_high ← rolling_max window high;
  lowest_low ← rolling_min window low;
  Ok (binop fdiv (scale (-100) (binop fsub highest_high close))
                 (binop fsub highest_high lowest_low)).

(** [atr] *)
Definition atr (high low close : Series) (window : Z) : result Series :=
  let high_low := binop fsub high low in
  let high_close := fabs <$> binop fsub high (shift close) in
  let low_close := fabs <$> binop fsub low (shift close) in
  let true_range := binop np_maximum high_low (binop np_maximum high_close low_close) in
  rolling_mean window None true_range.

(** [cci] *)
Definition cci (high low close : Series) (window : Z) : result Series :=
  let typical_price :=
    (fun x => fdiv x (Fin 3)) <$> binop fadd (binop fadd high low) close in
  sma ← rolling_mean window None typical_price;
  mean_deviation ← rolling_checked window None mean_abs_dev typical_price;
  Ok (binop fdiv (binop fsub typical_price sma) (scale 0.015 mean_deviation)).

End TechnicalIndicators.

(** ** risk.py *)

Module RiskManager.

Record RiskMetrics : Type := {
  stop_loss : fl;
  take_profit : fl;
  risk_reward_ratio : fl;
  position_size : fl;
  max_drawdown : fl;
  volatility : fl
}.

(** [calculate_position_size].  The analyzer passes a numpy scalar as
    [stop_loss_pct], so the division follows IEEE rules. *)
Definition calculate_position_size
  (account_balance risk_per_trade stop_loss_pct : fl) : fl :=
  let risk_amount := fmul account_balance risk_per_trade in
  let position_size := fdiv risk_amount stop_loss_pct in
  py_min position_size (fmul account_balance (Fin 0.1)).

(** [calculate_max_drawdown]. *)
Definition calculate_max_drawdown (prices : Series) : fl :=
  let peak := expanding_max prices in
  let drawdown := binop fdiv (binop fsub prices peak) peak in
  smin drawdown.

End RiskManager.
Import RiskManager.

(** ** model.py *)

Inductive SignalType : Type := BUY | SELL | HOLD.

Inductive SignalStrength : Type := WEAK | MODERATE | STRONG.

Record TradingSignal : Type := {
  date : Z;
  signal_type : SignalType;
  strength : SignalStrength;
  price : fl;
  indicators : gmap string fl;
  reasons : list string;
  confidence : fl
}.

(** ** pandas DataFrame *)

Module Frame.

(** A frame is an index (one timestamp per row) and named columns, every
    column as long as the index. *)
Record DataFrame : Type := {
  index : list Z;
  columns : gmap string Series
}.

Abbreviation Row := (gmap string fl).

(** [len(df)] *)
Definition len (df : DataFrame) : nat := length (index df).

(** [df.empty]: no rows or no columns. *)
Definition empty (df : DataFrame) : bool :=
  (Nat.eqb (len df) 0 || bool_decide (columns df = ∅))%bool.

(** [name in df] *)
Definition has_column (df : DataFrame) (name : string) : bool :=
  bool_decide (is_Some (columns df !! name)).

(** [df[name]] *)
Definition col (df : DataFrame) (name : string) : result Series :=
  match columns df !! name with
  | Some s => Ok s
  | None => Raise (KeyError name)
  end.

(** [df[name] = s] *)
Definition set_col (name : string) (s : Series) (df : DataFrame) : DataFrame :=
  {| index := index df; columns := <[name := s]> (columns df) |}.

(** [df.iloc[i]] for [0 <= i]: the row across all columns. *)
Definition iloc (df : DataFrame) (i : nat) : result Row :=
  if Nat.ltb i (len df)
  then Ok ((fun s : Series => default NaN (s !! i)) <$> columns df)
  else Raise IndexError.

(** [s.iloc[-1]] *)
Definition iloc_last (s : Series) : result fl :=
  match last s with
  | Some v => Ok v
  | None => Raise IndexError
  end.

(** [row[name]] *)
Definition getitem (row : Row) (name : string) : result fl :=
  match row !! name with
  | Some v => Ok v
  | None => Raise (KeyError name)
  end.

End Frame.
Import Frame.

(** ** analyzer.py *)

Module Analyzer.

Record Config : Type := {
  rsi_window : Z;
  rsi_overbought : Q;
  rsi_oversold : Q;
  macd_fast : Z;
  macd_slow : Z;
  macd_signal : Z;
  bb_window : Z;
  bb_std : Q;
  stoch_k : Z;
  stoch_d : Z;
  min_signal_strength : Z;
  risk_per_trade : Q
}.

(** The dictionary literal of [__init__]. *)
Definition default_config : Config := {|
  rsi_window := 14;
  rsi_overbought := 70;
  rsi_oversold := 30;
  macd_fast := 12;
  macd_slow := 26;
  macd_signal := 9;
  bb_window := 20;
  bb_std := 2;
  stoch_k := 14;
  stoch_d := 3;
  min_signal_strength := 2;
  risk_per_trade := 0.02
|}.

(** The analyzer object: the attributes the methods read and write. *)
Record ProfessionalStockAnalyzer : Type := {
  data : DataFrame;
  config : Config;
  signals : list TradingSignal;
  risk_metrics : option RiskMetrics
}.

Definition with_data (df : DataFrame) (self : ProfessionalStockAnalyzer) :=
  {| data := df; config := config self; signals := signals self;
     risk_metrics := risk_metrics self |}.

Definition with_signals (l : list TradingSignal) (self : ProfessionalStockAnalyzer) :=
  {| data := data self; config := config self; signals := l;
     risk_metrics := risk_metrics self |}.

Definition with_risk_metrics (r : option RiskMetrics) (self : ProfessionalStockAnalyzer) :=
  {| data := data self; config := config self; signals := signals self;
     risk_metrics := r |}.

(** Methods run on the object and either return or raise; the object
    keeps whatever was written before an exception. *)
Definition M (A : Type) : Type :=
  ProfessionalStockAnalyzer -> result A * ProfessionalStockAnalyzer.

#[export] Instance M_ret : MRet M := fun A a self => (Ok a, self).
#[export] Instance M_bind : MBind M := fun A B f m self =>
  match m self with
  | (Ok a, self') => f a self'
  | (Raise e, self') => (Raise e, self')
  end.

Definition lift {A} (r : result A) : M A := fun self => (r, self).
Definition get_config : M Config := fun self => (Ok (config self), self).
Definition get_data : M DataFrame := fun self => (Ok (data self), self).

Definition get_signals : M (list TradingSignal) :=
  fun self => (Ok (signals self), self).
Definition set_signals (l : list TradingSignal) : M unit :=
  fun self => (Ok tt, with_signals l self).
Definition set_risk_metrics (r : option RiskMetrics) : M unit :=
  fun self => (Ok tt, with_risk_metrics r self).

(** [self.data[name]] *)
Definition column (name : string) : M Series :=
  fun self => (col (data self) name, self).

(** [self.data[name] = s] *)
Definition assign (name : string) (s : Series) : M unit :=
  fun self => (Ok tt, with_data (set_col name s (data self)) self).

(** [_fetch_data]; [history] is what the data provider returned. *)
Definition _fetch_data `{Libm} (history : DataFrame) : M unit :=
  fun self =>
    let self := with_data history self in
    if empty (data self) then (Raise (ValueError "No data found for symbol"), self)
    else
      (close ← column "Close";
       assign "Returns" (pct_change close);;
       close ← column "Close";
       assign "Log_Returns" (np_log <$> binop fdiv close (shift close))) self.

(** [__init__]: the fresh object, or the exception of [_fetch_data]. *)
Definition __init__ `{Libm} (history : DataFrame) : result ProfessionalStockAnalyzer :=
  let self := {| data := {| index := []; columns := ∅ |};
                 config := default_config;
                 signals := [];
                 risk_metrics := None |} in
  match _fetch_data history self with
  | (Ok _, self') => Ok self'
  | (Raise e, _) => Raise e
  end.

Definition _calculate_moving_averages : M unit :=
  close ← column "Close"; s ← lift (rolling_mean 10 None close); assign "SMA_10" s;;
  close ← column "Close"; s ← lift (rolling_mean 20 None close); assign "SMA_20" s;;
  close ← column "Close"; s ← lift (rolling_mean 50 None close); assign "SMA_50" s;;
  close ← column "Close"; s ← lift (rolling_mean 200 None close); assign "SMA_200" s;;
  close ← column "Close"; s ← lift (ewm_mean 12 close); assign "EMA_12" s;;
  close ← column "Close"; s ← lift (ewm_mean 26 close); assign "EMA_26" s;;
  close ← column "Close"; s ← lift (ewm_mean 50 close); assign "EMA_50" s.

Definition _calculate_rsi : M unit :=
  close ← column "Close";
  cfg ← get_config;
  r ← lift (TechnicalIndicators.rsi close (rsi_window cfg));
  assign "RSI" r.

Definition _calculate_macd : M unit :=
  close ← column "Close";
  cfg ← get_config;
  '(macd, signal, histogram) ←
     lift (TechnicalIndicators.macd close (macd_fast cfg) (macd_slow cfg) (macd_signal cfg));
  assign "MACD" macd;;
  assign "MACD_Signal" signal;;
  assign "MACD_Histogram" histogram.

Definition _calculate_bollinger_bands `{Libm} : M unit :=
  close ← column "Close";
  cfg ← get_config;
  '(upper, middle, lower) ←
     lift (TechnicalIndicators.bollinger_bands close (bb_window cfg) (bb_std cfg));
  assign "BB_Upper" upper;;
  assign "BB_Middle" middle;;
  assign "BB_Lower" lower;;
  assign "BB_Width"
    (TechnicalIndicators.scale 100 (binop fdiv (binop fsub upper lower) middle)).

Definition _calculate_stochastic : M unit :=
  high ← column "High";
  low ← column "Low";
  close ← column "Close";
  cfg ← get_config;
  '(k_percent, d_percent) ←
     lift (TechnicalIndicators.stochastic high low close (stoch_k cfg) (stoch_d cfg));
  assign "Stoch_K" k_percent;;
  assign "Stoch_D" d_percent.

Definition _calculate_williams_r : M unit :=
  high ← column "High";
  low ← column "Low";
  close ← column "Close";
  r ← lift (TechnicalIndicators.williams_r high low close 14);
  assign "Williams_R" r.

Definition _calculate_atr : M unit :=
  high ← column "High";
  low ← column "Low";
  close ← column "Close";
  r ← lift (TechnicalIndicators.atr high low close 14);
  assign "ATR" r.

Definition _calculate_cci : M unit :=
  high ← column "High";
  low ← column "Low";
  close ← column "Close";
  r ← lift (TechnicalIndicators.cci high low close 20);
  assign "CCI" r.

(** [calculate_all_indicators]; the [except] clause logs and re-raises. *)
Definition calculate_all_indicators `{Libm} : M unit :=
  _calculate_moving_averages;;
  _calculate_rsi;;
  _calculate_macd;;
  _calculate_bollinger_bands;;
  _calculate_stochastic;;
  _calculate_williams_r;;
  _calculate_atr;;
  _calculate_cci.

(** *** Signal scan *)

(** The scan starts at this row ("Start after indicators are stable"). *)
Definition scan_start : nat := 50.

(** The two locals a scan step accumulates: the score and the names of
    the rules that fired. *)
Record Tally : Type := {
  signal_score : Z;
  fired : list string
}.

Definition fire (delta : Z) (reason : string) (t : Tally) : Tally :=
  {| signal_score := signal_score t + delta; fired := fired t ++ [reason] |}.

(** A comparison of two subscripted values, left operand first. *)
Definition cmp (op : fl -> fl -> bool) (a b : result fl) : result bool :=
  x ← a; y ← b; Ok (op x y).

(** Python's short-circuit [and]. *)
Definition and_ (a b : result bool) : result bool :=
  a ≫= fun x : bool => if x then b else Ok false.

(** [if c1: score += d1; reasons.append(r1)  elif c2: score += d2; ...] *)
Definition if_elif (c1 : result bool) (d1 : Z) (r1 : string)
  (c2 : result bool) (d2 : Z) (r2 : string) (t : Tally) : result Tally :=
  c1 ≫= fun b1 : bool =>
  if b1 then Ok (fire d1 r1 t)
  else c2 ≫= fun b2 : bool => if b2 then Ok (fire d2 r2 t) else Ok t.

Definition const (q : Q) : result fl := Ok (Fin q).

Definition rsi_signals (cfg : Config) (current : Row) : Tally -> result Tally :=
  if_elif
    (cmp flt (getitem current "RSI") (const (rsi_oversold cfg)))
    2 "RSI Oversold"
    (cmp fgt (getitem current "RSI") (const (rsi_overbought cfg)))
    (-2) "RSI Overbought".

Definition macd_signals (current previous : Row) : Tally -> result Tally :=
  if_elif
    (and_ (cmp fgt (getitem current "MACD") (getitem current "MACD_Signal"))
          (cmp fle (getitem previous "MACD") (getitem previous "MACD_Signal")))
    3 "MACD Bullish Crossover"
    (and_ (cmp flt (getitem current "MACD") (getitem current "MACD_Signal"))
          (cmp fge (getitem previous "MACD") (getitem previous "MACD_Signal")))
    (-3) "MACD Bearish Crossover".

Definition bollinger_signals (bb_position : fl) : Tally -> result Tally :=
  if_elif
    (cmp flt (Ok bb_position) (const 0.1)) 2 "Below BB Lower Band"
    (cmp fgt (Ok bb_position) (const 0.9)) (-2) "Above BB Upper Band".

Definition stochastic_signals (current previous : Row) : Tally -> result Tally :=
  if_elif
    (and_ (cmp flt (getitem current "Stoch_K") (const 20))
      (and_ (cmp flt (getitem current "Stoch_D") (const 20))
        (and_ (cmp fgt (getitem current "Stoch_K") (getitem current "Stoch_D"))
              (cmp fle (getitem previous "Stoch_K") (getitem previous "Stoch_D")))))
    2 "Stochastic Bullish Crossover"
    (and_ (cmp fgt (getitem current "Stoch_K") (const 80))
      (and_ (cmp fgt (getitem current "Stoch_D") (const 80))
        (and_ (cmp flt (getitem current "Stoch_K") (getitem current "Stoch_D"))
              (cmp fge (getitem previous "Stoch_K") (getitem previous "Stoch_D")))))
    (-2) "Stochastic Bearish Crossover".

Definition williams_signals (current : Row) : Tally -> result Tally :=
  if_elif
    (cmp flt (getitem current "Williams_R") (const (-80))) 1 "Williams %R Oversold"
    (cmp fgt (getitem current "Williams_R") (const (-20))) (-1) "Williams %R Overbought".

Definition cci_signals (current : Row) : Tally -> result Tally :=
  if_elif
    (cmp flt (getitem current "CCI") (const (-100))) 1 "CCI Oversold"
    (cmp fgt (getitem current "CCI") (const 100)) (-1) "CCI Overbought".

Definition sma20_signals (current previous : Row) : Tally -> result Tally :=
  if_elif
    (and_ (cmp fgt (getitem current "Close") (getitem current "SMA_20"))
          (cmp fle (getitem previous "Close") (getitem previous "SMA_20")))
    1 "Price Above SMA20"
    (and_ (cmp flt (getitem current "Close") (getitem current "SMA_20"))
          (cmp fge (getitem previous "Close") (getitem previous "SMA_20")))
    (-1) "Price Below SMA20".

Definition cross_signals (current previous : Row) : Tally -> result Tally :=
  if_elif
    (and_ (cmp fgt (getitem current "SMA_50") (getitem current "SMA_200"))
          (cmp fle (getitem previous "SMA_50") (getitem previous "SMA_200")))
    4 "Golden Cross"
    (and_ (cmp flt (getitem current "SMA_50") (getitem current "SMA_200"))
          (cmp fge (getitem previous "SMA_50") (getitem previous "SMA_200")))
    (-4) "Death Cross".

(** "Determine signal type and strength": the tail of the loop body. *)
Definition emit (cfg : Config) (date : Z) (price : fl)
  (indicators_dict : gmap string fl) (t : Tally) : option TradingSignal :=
  let signal_score := signal_score t in
  if (min_signal_strength cfg <=? Z.abs signal_score)%Z then
    let signal_type := if (0 <? signal_score)%Z then BUY else SELL in
    let strength_value :=
      fdiv (Fin (inject_Z (Z.min (Z.abs signal_score) 6))) (Fin 2) in
    let strength :=
      if fle strength_value (Fin 1.5) then WEAK
      else if fle strength_value (Fin 2.5) then MODERATE
      else STRONG in
    let confidence :=
      py_min (fdiv (Fin (inject_Z (Z.abs signal_score))) (Fin 8)) (Fin 1) in
    Some {| date := date;
            signal_type := signal_type;
            strength := strength;
            price := price;
            indicators := indicators_dict;
            reasons := fired t;
            confidence := confidence |}
  else None.

(** The rules of one step, in program order, from an empty tally. *)
Definition score_at (cfg : Config) (current previous : Row) (bb_position : fl)
  : result Tally :=
  t ← rsi_signals cfg current {| signal_score := 0; fired := [] |};
  t ← macd_signals current previous t;
  t ← bollinger_signals bb_position t;
  t ← stochastic_signals current previous t;
  t ← williams_signals current t;
  t ← cci_signals current t;
  t ← sma20_signals current previous t;
  cross_signals current previous t.

(** The body of the [for] loop at row [i]: the signal it appends, if any. *)
Definition signal_at (cfg : Config) (df : DataFrame) (i : nat)
  : result (option TradingSignal) :=
  current ← iloc df i;
  previous ← iloc df (i - 1);
  rsi ← getitem current "RSI";
  macd ← getitem current "MACD";
  macd_signal ← getitem current "MACD_Signal";
  close ← getitem current "Close";
  bb_lower ← getitem current "BB_Lower";
  bb_upper ← getitem current "BB_Upper";
  let bb_position := fdiv (fsub close bb_lower) (fsub bb_upper bb_lower) in
  stoch_k ← getitem current "Stoch_K";
  williams_r ← getitem current "Williams_R";
  cci ← getitem current "CCI";
  let indicators_dict : gmap string fl :=
    <["RSI" := rsi]> (<["MACD" := macd]> (<["MACD_Signal" := macd_signal]>
    (<["BB_Position" := bb_position]> (<["Stoch_K" := stoch_k]>
    (<["Williams_R" := williams_r]> (<["CCI" := cci]> ∅)))))) in
  t ← score_at cfg current previous bb_position;
  Ok (emit cfg (default 0%Z (index df !! i)) close indicators_dict t).

Definition scan_step (i : nat) : M unit :=
  fun self =>
    match signal_at (config self) (data self) i with
    | Ok (Some trading_signal) =>
        (Ok tt, with_signals (signals self ++ [trading_signal]) self)
    | Ok None => (Ok tt, self)
    | Raise e => (Raise e, self)
    end.

Fixpoint for_each (range : list nat) (body : nat -> M unit) : M unit :=
  match range with
  | [] => mret tt
  | i :: rest => body i;; for_each rest body
  end.

(** [generate_advanced_signals] *)
Definition generate_advanced_signals : M (list TradingSignal) :=
  set_signals [];;
  df ← get_data;
  for_each (seq scan_start (len df - scan_start)) scan_step;;
  get_signals.

(** *** Risk snapshot *)

(** [calculate_risk_metrics] *)
Definition calculate_risk_metrics `{Libm} (account_balance : fl)
  : M (option RiskMetrics) :=
  df ← get_data;
  if empty df then mret None
  else
    close ← column "Close";
    current_price ← lift (iloc_last close);
    atr ← (if has_column df "ATR"
           then (a ← column "ATR"; lift (iloc_last a))
           else mret (fmul current_price (Fin 0.02)));
    returns ← column "Returns";
    let volatility := fmul (std returns) (np_sqrt (Fin 252)) in
    let stop_loss := fsub current_price (fmul (Fin 2) atr) in
    let take_profit := fadd current_price (fmul (Fin 3) atr) in
    let stop_loss_pct := fdiv (fabs (fsub current_price stop_loss)) current_price in
    cfg ← get_config;
    let position_size :=
      calculate_position_size account_balance (Fin (risk_per_trade cfg)) stop_loss_pct in
    let risk_reward_ratio :=
      fdiv (fabs (fsub take_profit current_price)) (fabs (fsub current_price stop_loss)) in
    close ← column "Close";
    let max_drawdown := calculate_max_drawdown close in
    let metrics := {| stop_loss := stop_loss;
                      take_profit := take_profit;
                      risk_reward_ratio := risk_reward_ratio;
                      position_size := position_size;
                      max_drawdown := max_drawdown;
                      volatility := volatility |} in
    set_risk_metrics (Some metrics);;
    mret (Some metrics).

End Analyzer.
Import Analyzer.

(** ** Auxiliary definitions used in the proofs *)

(** The drawdown series when the running peak starts from [acc]. *)
Definition drawdown_from (acc : fl) (s : Series) : Series :=
  binop fdiv (binop fsub s (expanding_max_from acc s)) (expanding_max_from acc s).

(** The tally of the rules at row [i] of a frame. *)
Definition step_score (cfg : Config) (df : DataFrame) (i : nat) : result Tally :=
  current ← iloc df i;
  previous ← iloc df (i - 1);
  close ← getitem current "Close";
  bb_lower ← getitem current "BB_Lower";
  bb_upper ← getitem current "BB_Upper";
  score_at cfg current previous (fdiv (fsub close bb_lower) (fsub bb_upper bb_lower)).

Definition isqrtQ (q : Q) : Q :=
  Qred (Z.sqrt (Qnum q * Zpos (Qden q) * 1000000000000) # (Qden q * 1000000)).

Definition approx_libm : Libm := {| sqrtQ := isqrtQ; logQ := fun _ => 0 |}.

Definition history (high low close : list Q) : DataFrame :=
  {| index := Z.of_nat <$> seq 0 (length close);
     columns := <["Open" := Fin <$> close]> (<["High" := Fin <$> high]>
       (<["Low" := Fin <$> low]> (<["Close" := Fin <$> close]>
       (<["Volume" := repeat (Fin 1000) (length close)]> ∅)))) |}.

Definition analyze (h : DataFrame) : option ProfessionalStockAnalyzer :=
  match @__init__ approx_libm h with
  | Ok self =>
      match @calculate_all_indicators approx_libm self with
      | (Ok _, self') => Some self'
      | _ => None
      end
  | Raise _ => None
  end.

Definition flat_closes : list Q := repeat 50 55.
Definition flat_analyzer : ProfessionalStockAnalyzer :=
  default {| data := {| index := []; columns := ∅ |}; config := default_config; signals := []; risk_metrics := None |}
    (analyze (history flat_closes flat_closes flat_closes)).

(** A frame given column by column (rows 0 to 50 quiet, row 51 with four
    buy rules and the SMA20 crossing firing together), and an analyzer
    holding it under a threshold of 10. *)
Definition quiet_then (n : nat) (quiet last : Q) : Series :=
  repeat (Fin quiet) n ++ [Fin last].

Definition crowded_frame : DataFrame :=
  {| index := Z.of_nat <$> seq 0 52;
     columns :=
       <["Close" := quiet_then 51 100 90]> (
       <["RSI" := quiet_then 51 50 20]> (
       <["MACD" := quiet_then 51 (-1) 1]> (
       <["MACD_Signal" := quiet_then 51 0 0]> (
       <["BB_Lower" := quiet_then 51 90 90]> (
       <["BB_Upper" := quiet_then 51 110 110]> (
       <["Stoch_K" := quiet_then 51 50 50]> (
       <["Stoch_D" := quiet_then 51 50 50]> (
       <["Williams_R" := quiet_then 51 (-50) (-50)]> (
       <["CCI" := quiet_then 51 0 0]> (
       <["SMA_20" := quiet_then 51 100 80]> (
       <["SMA_50" := quiet_then 51 99 101]> (
       <["SMA_200" := quiet_then 51 100 100]> ∅)))))))))))) |}.

Definition with_min_signal_strength (m : Z) (cfg : Config) : Config :=
  {| rsi_window := rsi_window cfg; rsi_overbought := rsi_overbought cfg;
     rsi_oversold := rsi_oversold cfg; macd_fast := macd_fast cfg;
     macd_slow := macd_slow cfg; macd_signal := macd_signal cfg;
     bb_window := bb_window cfg; bb_std := bb_std cfg; stoch_k := stoch_k cfg;
     stoch_d := stoch_d cfg; min_signal_strength := m;
     risk_per_trade := risk_per_trade cfg |}.

Definition crowded_analyzer : ProfessionalStockAnalyzer :=
  {| data := crowded_frame;
     config := with_min_signal_strength 10 default_config;
     signals := [];
     risk_metrics := None |}.

(** C10 as stated: every emitted signal has a confidence in
    [min_signal_strength/8, 1] that is never 0. *)
Definition confidence_floor_claim (self : ProfessionalStockAnalyzer) : Prop :=
  forall sigs self',
    generate_advanced_signals self = (Ok sigs, self') ->
    Forall (fun s => exists c, confidence s = Fin c /\
                      inject_Z (min_signal_strength (config self)) / 8 <= c /\
                      c <= 1 /\ ~ c == 0) sigs.

(** The columns a scan step reads from a row. *)
Definition scan_columns : list string :=
  ["RSI"; "MACD"; "MACD_Signal"; "Close"; "BB_Lower"; "BB_Upper"; "Stoch_K";
   "Stoch_D"; "Williams_R"; "CCI"; "SMA_20"; "SMA_50"; "SMA_200"].

(** The row holds a value for every column the scan reads. *)
Definition complete (row : Row) : Prop :=
  Forall (fun k => is_Some (row !! k)) scan_columns.

(** The value read at [row[name]] is the undefined marker. *)
Definition undefined (row : Row) (name : string) : Prop :=
  row !! name = Some NaN.

(** The value of a series at a position, NaN outside it. *)
Definition at_ (s : Series) (i : nat) : fl := default NaN (s !! i).

Definition no_tally : Tally := {| signal_score := 0; fired := [] |}.

(** What the Golden/Death cross block adds at row [i] of a frame. *)
Definition cross_contribution (df : DataFrame) (i : nat) : result Tally :=
  current ← iloc df i;
  previous ← iloc df (i - 1);
  cross_signals current previous no_tally.

(** C5 as stated: a step [t] in the scanned range where SMA_50 is at most
    SMA_200 one row earlier and strictly above it at [t] gets +4 from the
    Golden Cross rule, and no other scanned step gets anything from the
    Golden or Death Cross rule. *)
Definition golden_cross_claim (df : DataFrame) (t : nat) : Prop :=
  forall sma50 sma200 : Series,
  columns df !! "SMA_50" = Some sma50 ->
  columns df !! "SMA_200" = Some sma200 ->
  (scan_start <= t < len df)%nat ->
  fle (at_ sma50 (t - 1)) (at_ sma200 (t - 1)) = true ->
  fgt (at_ sma50 t) (at_ sma200 t) = true ->
  cross_contribution df t = Ok (fire 4 "Golden Cross" no_tally) /\
  forall s, (scan_start <= s < len df)%nat -> s <> t ->
            cross_contribution df s = Ok no_tally.

(** A fresh analyzer holding a fetched history, and the frame after the
    moving averages have been added to it. *)
Definition fresh (h : DataFrame) : ProfessionalStockAnalyzer :=
  {| data := h; config := default_config; signals := []; risk_metrics := None |}.

Definition averaged (closes : list Q) : DataFrame :=
  data (snd (_calculate_moving_averages (fresh (history closes closes closes)))).

(** 200 closes at 100, then a jump to 130 and a fall to 10. *)
Definition spike_closes : list Q := repeat 100 200 ++ [130; 10].
(** 200 closes at 100, then two closes at 130. *)
Definition step_closes : list Q := repeat 100 200 ++ [130; 130].

(** The SMA_50 and SMA_200 columns of these two series, written out. *)
Definition spike_sma50 : Series :=
  repeat NaN 49 ++ repeat (Fin 100) 151 ++ [Fin (503 # 5); Fin (494 # 5)].
Definition spike_sma200 : Series :=
  repeat NaN 199 ++ [Fin 100; Fin (2003 # 20); Fin (997 # 10)].
Definition step_sma50 : Series :=
  repeat NaN 49 ++ repeat (Fin 100) 151 ++ [Fin (503 # 5); Fin (506 # 5)].
Definition step_sma200 : Series :=
  repeat NaN 199 ++ [Fin 100; Fin (2003 # 20); Fin (1003 # 10)].

(** The row [df.iloc[i]] of an in-range position. *)
Definition row_at (df : DataFrame) (i : nat) : Row :=
  (fun s : Series => at_ s i) <$> columns df.

(** The seven columns [_calculate_moving_averages] writes, from the
    close column. *)
Definition moving_average_columns (close : Series) (df : DataFrame) : DataFrame :=
  set_col "EMA_50" (ewm_adjusted (2 / (inject_Z 50 + 1)) close)
   (set_col "EMA_26" (ewm_adjusted (2 / (inject_Z 26 + 1)) close)
    (set_col "EMA_12" (ewm_adjusted (2 / (inject_Z 12 + 1)) close)
     (set_col "SMA_200" (rolling 200 200 mean close)
      (set_col "SMA_50" (rolling 50 50 mean close)
       (set_col "SMA_20" (rolling 20 20 mean close)
        (set_col "SMA_10" (rolling 10 10 mean close) df)))))).

(** The window routines accept these values: a rolling window with one
    required observation and an EWM span need at least 1, a plain rolling
    window at least 0. *)
Definition valid_windows (cfg : Config) : bool :=
  ((1 <=? rsi_window cfg)%Z &&
   ((1 <=? macd_fast cfg)%Z && ((1 <=? macd_slow cfg)%Z && (1 <=? macd_signal cfg)%Z)) &&
   (0 <=? bb_window cfg)%Z &&
   ((0 <=? stoch_k cfg)%Z && (0 <=? stoch_d cfg)%Z))%bool.

(** Some configured window or period is zero or negative. *)
Definition non_positive_window (cfg : Config) : bool :=
  ((rsi_window cfg <=? 0)%Z || (macd_fast cfg <=? 0)%Z || (macd_slow cfg <=? 0)%Z ||
   (macd_signal cfg <=? 0)%Z || (bb_window cfg <=? 0)%Z || (stoch_k cfg <=? 0)%Z ||
   (stoch_d cfg <=? 0)%Z)%bool.

(** A call either returns or raises a ValueError, as [b] tells. *)
Definition returns_iff {A} (r : result A) (b : bool) : Prop :=
  if b then exists a, r = Ok a else exists msg, r = Raise (ValueError msg).

Definition price_columns : list string := ["Close"; "High"; "Low"].

Definition moving_average_names : list string :=
  ["SMA_10"; "SMA_20"; "SMA_50"; "SMA_200"; "EMA_12"; "EMA_26"; "EMA_50"].

(** The configuration, the price columns and the moving averages are
    the same in [self'] as in [self]. *)
Definition preserved (self self' : ProfessionalStockAnalyzer) : Prop :=
  config self' = config self /\
  Forall (fun n => columns (data self') !! n = columns (data self) !! n)
         (price_columns ++ moving_average_names).

(** A method that, on a frame with the price columns, returns exactly
    when [valid] accepts the configuration, raises a ValueError otherwise,
    and leaves the columns above alone. *)
Definition checks (valid : Config -> bool) (m : M unit) : Prop :=
  forall self,
    Forall (fun n => is_Some (columns (data self) !! n)) price_columns ->
    exists r self',
      m self = (r, self') /\ preserved self self' /\
      returns_iff r (valid (config self)).

Definition with_config (cfg : Config) (self : ProfessionalStockAnalyzer) :=
  {| data := data self; config := cfg; signals := signals self;
     risk_metrics := risk_metrics self |}.

Definition with_rsi_window (w : Z) (cfg : Config) : Config :=
  {| rsi_window := w; rsi_overbought := rsi_overbought cfg;
     rsi_oversold := rsi_oversold cfg; macd_fast := macd_fast cfg;
     macd_slow := macd_slow cfg; macd_signal := macd_signal cfg;
     bb_window := bb_window cfg; bb_std := bb_std cfg; stoch_k := stoch_k cfg;
     stoch_d := stoch_d cfg; min_signal_strength := min_signal_strength cfg;
     risk_per_trade := risk_per_trade cfg |}.

Definition with_bb_window (w : Z) (cfg : Config) : Config :=
  {| rsi_window := rsi_window cfg; rsi_overbought := rsi_overbought cfg;
     rsi_oversold := rsi_oversold cfg; macd_fast := macd_fast cfg;
     macd_slow := macd_slow cfg; macd_signal := macd_signal cfg;
     bb_window := w; bb_std := bb_std cfg; stoch_k := stoch_k cfg;
     stoch_d := stoch_d cfg; min_signal_strength := min_signal_strength cfg;
     risk_per_trade := risk_per_trade cfg |}.

(** The object [__init__] builds from a fetched history. *)
Definition constructed (h : DataFrame) : ProfessionalStockAnalyzer :=
  match @__init__ approx_libm h with
  | Ok self => self
  | Raise _ => fresh h
  end.

(** The flat history, with [rsi_window] or [bb_window] set to 0 after
    construction. *)
Definition zero_rsi_window_analyzer : ProfessionalStockAnalyzer :=
  with_config (with_rsi_window 0 default_config)
    (constructed (history flat_closes flat_closes flat_closes)).

Definition zero_bb_window_analyzer : ProfessionalStockAnalyzer :=
  with_config (with_bb_window 0 default_config)
    (constructed (history flat_closes flat_closes flat_closes)).

(** C7 as stated: with a non-positive window or period in the
    configuration, [calculate_all_indicators] raises with nothing computed:
    the object is as it was. *)
Definition rejected_before_computation `{Libm} (self : ProfessionalStockAnalyzer) : Prop :=
  non_positive_window (config self) = true ->
  exists e, calculate_all_indicators self = (Raise e, self).

(** Ten flat bars: fewer than the 14 the ATR needs. *)
Definition short_closes : list Q := repeat 50 10.
Definition short_analyzer : ProfessionalStockAnalyzer :=
  default (fresh (history short_closes short_closes short_closes))
          (analyze (history short_closes short_closes short_closes)).

(** C3 as stated: when the last ATR value is undefined, stop-loss and
    take-profit are computed from 2% of the last close. *)
Definition atr_fallback_claim `{Libm} (self : ProfessionalStockAnalyzer)
  (account_balance : fl) : Prop :=
  forall close price atr_col,
    columns (data self) !! "Close" = Some close -> last close = Some price ->
    columns (data self) !! "ATR" = Some atr_col -> last atr_col = Some NaN ->
    exists m self',
      calculate_risk_metrics account_balance self = (Ok (Some m), self') /\
      stop_loss m = fsub price (fmul (Fin 2) (fmul price (Fin 0.02))) /\
      take_profit m = fadd price (fmul (Fin 3) (fmul price (Fin 0.02))).

(** The two rolling averages [rsi] computes before dividing. *)
Definition rsi_gain (prices : Series) (window : Z) : result Series :=
  rolling_mean window (Some 1%Z)
    (where_ (fun d => fgt d (Fin 0)) (Fin 0) (diff prices)).

Definition rsi_loss (prices : Series) (window : Z) : result Series :=
  rolling_mean window (Some 1%Z)
    (fneg <$> where_ (fun d => flt d (Fin 0)) (Fin 0) (diff prices)).

Definition all_finite (s : Series) : Prop := Forall (fun x => is_finite x = true) s.

(** The record [calculate_risk_metrics] builds from the last close, the
    ATR it settled on, the two columns it reads and the balance. *)
Definition snapshot_of `{Libm} (current_price atr : fl) (returns close : Series)
  (account_balance : fl) (cfg : Config) : RiskMetrics :=
  let stop_loss := fsub current_price (fmul (Fin 2) atr) in
  let take_profit := fadd current_price (fmul (Fin 3) atr) in
  {| stop_loss := stop_loss;
     take_profit := take_profit;
     risk_reward_ratio :=
       fdiv (fabs (fsub take_profit current_price)) (fabs (fsub current_price stop_loss));
     position_size :=
       calculate_position_size account_balance (Fin (risk_per_trade cfg))
         (fdiv (fabs (fsub current_price stop_loss)) current_price);
     max_drawdown := calculate_max_drawdown close;
     volatility := fmul (std returns) (np_sqrt (Fin 252)) |}.


Definition empty_frame : DataFrame := {| index := []; columns := ∅ |}.


(** * Properties *)

Section FloatFacts.

Lemma flt_Fin x y : flt (Fin x) (Fin y) = true <-> x < y.
Proof.
  unfold flt; simpl. rewrite Qlt_alt. destruct (x ?= y); intuition congruence.
Qed.

Lemma flt_Fin_false x y : flt (Fin x) (Fin y) = false <-> y <= x.
Proof.
  rewrite <- not_true_iff_false, flt_Fin. split; [apply Qnot_lt_le | apply Qle_not_lt].
Qed.

Lemma fle_Fin x y : fle (Fin x) (Fin y) = true <-> x <= y.
Proof.
  unfold fle; simpl. rewrite Qle_alt. destruct (x ?= y); intuition congruence.
Qed.

Lemma Qred_zero q : q == 0 -> Qred q = 0.
Proof. intros H. apply (Qred_complete q 0 H). Qed.

Lemma fdiv_Fin x y : ~ y == 0 -> fdiv (Fin x) (Fin y) = Fin (Qred (x / y)).
Proof.
  intros Hy. cbn [fdiv]. destruct (Qeq_bool y 0) eqn:E; [|reflexivity].
  apply Qeq_bool_eq in E. contradiction.
Qed.

Lemma fle_Fin_false x y : fle (Fin x) (Fin y) = false <-> y < x.
Proof.
  rewrite <- not_true_iff_false, fle_Fin. split; [apply Qnot_le_lt | apply Qlt_not_le].
Qed.

End FloatFacts.

(** ** Position size *)

Section PositionSize.
Import RiskManager.

Lemma py_min_le_r x y : fle (py_min (Fin x) (Fin y)) (Fin y) = true.
Proof.
  unfold py_min. destruct (flt (Fin y) (Fin x)) eqn:E.
  - apply fle_Fin. apply Qle_refl.
  - apply fle_Fin. now apply flt_Fin_false.
Qed.

(** C9: with a non-negative balance, a non-negative risk fraction and a
    strictly positive stop-loss percentage, the position size is a finite
    number no larger than 0.1 times the balance. *)
Theorem position_size_at_most_tenth (balance risk pct : Q) :
  0 <= balance -> 0 <= risk -> 0 < pct ->
  exists size : Q,
    calculate_position_size (Fin balance) (Fin risk) (Fin pct) = Fin size /\
    size <= 0.1 * balance.
Proof.
  intros _ _ Hpct. unfold calculate_position_size. cbn [fmul fdiv].
  assert (Hz : Qeq_bool pct 0 = false).
  { apply not_true_iff_false. intros H. apply Qeq_bool_eq in H.
    rewrite H in Hpct. now apply Qlt_irrefl in Hpct. }
  rewrite Hz.
  set (x := Qred (Qred (balance * risk) / pct)).
  set (y := Qred (balance * 0.1)).
  pose proof (py_min_le_r x y) as Hle.
  unfold py_min in *. destruct (flt (Fin y) (Fin x)).
  - exists y. split; [reflexivity|]. unfold y. rewrite Qred_correct. lra.
  - exists x. split; [reflexivity|]. apply fle_Fin in Hle.
    unfold y in Hle. rewrite Qred_correct in Hle. lra.
Qed.

Lemma position_size_at_most_tenth_witness :
  exists size : Q,
    calculate_position_size (Fin 100000) (Fin 0.02) (Fin 0.05) = Fin size /\
    size <= 0.1 * 100000.
Proof.
  apply (position_size_at_most_tenth 100000 0.02 0.05); unfold Qle, Qlt; simpl; lia.
Defined.

End PositionSize.

(** ** Maximum drawdown *)

Section MaxDrawdown.
Import RiskManager.

Lemma drawdown_from_cons acc x t :
  drawdown_from acc (x :: t) =
  fdiv (fsub x (nanmax acc x)) (nanmax acc x) :: drawdown_from (nanmax acc x) t.
Proof. reflexivity. Qed.

Lemma Qeq_bool_pos m : 0 < m -> Qeq_bool m 0 = false.
Proof.
  intros Hm. apply not_true_iff_false. intros H. apply Qeq_bool_eq in H. lra.
Qed.

Lemma Sorted_Qle_head (p m : Q) (t : list Q) :
  p == m -> Sorted Qle (p :: t) -> Sorted Qle (m :: t).
Proof.
  intros E H. inversion H as [|? ? Hs Hh]; subst. constructor; [exact Hs|].
  inversion Hh; subst; constructor. lra.
Qed.

(** A drawdown entry is finite, non-positive, in lowest terms, and null
    exactly when the price sits on the peak. *)
Lemma drawdown_entry (p m : Q) :
  0 < m -> p <= m ->
  exists d, fdiv (fsub (Fin p) (Fin m)) (Fin m) = Fin d /\
            d <= 0 /\ Qred d = d /\ (d = 0 <-> p == m).
Proof.
  intros Hm Hp. cbn [fsub fdiv]. rewrite (Qeq_bool_pos m Hm).
  eexists; split; [reflexivity|].
  assert (Hv : Qred (Qred (p - m) / m) == (p - m) / m).
  { rewrite Qred_correct. now rewrite Qred_correct. }
  repeat split.
  - rewrite Hv. apply Qle_shift_div_r; lra.
  - apply Qcanon.Qred_involutive.
  - intros H0. rewrite H0 in Hv. symmetry in Hv.
    assert (Hm' : ~ m == 0) by lra.
    assert (Hz : p - m == (p - m) / m * m) by (field; exact Hm').
    rewrite Hv in Hz. lra.
  - intros E. apply Qred_zero. rewrite Qred_correct, E. field. lra.
Qed.

Lemma drawdown_from_peak (ps : list Q) : forall m : Q,
  0 < m -> Forall (fun p => 0 < p) ps ->
  exists ds : list Q,
    drawdown_from (Fin m) (Fin <$> ps) = Fin <$> ds /\
    length ds = length ps /\
    Forall (fun d => d <= 0 /\ Qred d = d) ds /\
    (Forall (fun d => d = 0) ds <-> Sorted Qle (m :: ps)).
Proof.
  induction ps as [|p t IH]; intros m Hm Hps.
  - exists []. repeat split; auto.
  - inversion Hps as [|? ? Hp Ht]; subst.
    rewrite fmap_cons, drawdown_from_cons.
    unfold nanmax. destruct (flt (Fin m) (Fin p)) eqn:E.
    + apply flt_Fin in E.
      destruct (IH p Hp Ht) as (ds & Hds & Hlen & Hall & Hiff).
      destruct (drawdown_entry p p Hp (Qle_refl p)) as (d & Hd & Hle & Hred & Hz).
      exists (d :: ds). rewrite Hd, Hds. repeat split; auto.
      * simpl; congruence.
      * intros H. inversion H; subst. constructor; [now apply Hiff|].
        constructor; lra.
      * intros H. inversion H as [|? ? Hs Hh]; subst.
        constructor; [now apply Hz | now apply Hiff].
    + apply flt_Fin_false in E.
      destruct (IH m Hm Ht) as (ds & Hds & Hlen & Hall & Hiff).
      destruct (drawdown_entry p m Hm E) as (d & Hd & Hle & Hred & Hz).
      exists (d :: ds). rewrite Hd, Hds. repeat split; auto.
      * simpl; congruence.
      * intros H. inversion H as [|? ? H0 Hrest].
        apply Hz in H0. apply Hiff in Hrest.
        constructor; [|constructor; lra].
        apply Sorted_Qle_head with (p := m); [lra | exact Hrest].
      * intros H. inversion H as [|? ? Hs Hh]; subst.
        inversion Hh as [|? ? Hmp]; subst.
        assert (Epm : p == m) by lra.
        constructor; [now apply Hz|]. apply Hiff.
        apply Sorted_Qle_head with (p := p); assumption.
Qed.

(** The NaN-skipping minimum of finite values, folded from [a]. *)
Lemma smin_from (ds : list Q) : forall a : Q,
  exists d, foldl nanmin (Fin a) (Fin <$> ds) = Fin d /\
            d <= a /\ Forall (fun x => d <= x) ds /\ (d = a \/ In d ds).
Proof.
  induction ds as [|x t IH]; intros a.
  - exists a. repeat split; auto. lra.
  - rewrite fmap_cons. cbn [foldl]. unfold nanmin.
    destruct (flt (Fin x) (Fin a)) eqn:E.
    + apply flt_Fin in E. destruct (IH x) as (d & Hd & Hle & Hall & Hin).
      exists d. split; [exact Hd|]. split; [lra|]. split.
      * constructor; auto.
      * right. destruct Hin as [->|Hin]; simpl; tauto.
    + apply flt_Fin_false in E. destruct (IH a) as (d & Hd & Hle & Hall & Hin).
      exists d. split; [exact Hd|]. split; [exact Hle|]. split.
      * constructor; [lra | auto].
      * simpl; tauto.
Qed.

(** C8: on a non-empty series of strictly positive closes the maximum
    drawdown is a finite number that is at most 0, and it is exactly 0 if
    and only if the closes never decrease. *)
Theorem max_drawdown_nonpositive_zero_iff_nondecreasing (closes : list Q) :
  closes <> [] -> Forall (fun p => 0 < p) closes ->
  exists d : Q,
    calculate_max_drawdown (Fin <$> closes) = Fin d /\
    d <= 0 /\
    (d = 0 <-> Sorted Qle closes).
Proof.
  intros Hne Hpos. destruct closes as [|p t]; [congruence|].
  inversion Hpos as [|? ? Hp Ht]; subst.
  destruct (drawdown_from_peak (p :: t) p Hp Hpos) as (ds & Hds & Hlen & Hall & Hiff).
  assert (Hstart : calculate_max_drawdown (Fin <$> p :: t) = smin (Fin <$> ds)).
  { unfold calculate_max_drawdown, expanding_max. rewrite <- Hds.
    unfold drawdown_from. rewrite !fmap_cons. cbn [expanding_max_from].
    replace (nanmax (Fin p) (Fin p)) with (Fin p); [reflexivity|].
    unfold nanmax. destruct (flt (Fin p) (Fin p)); reflexivity. }
  rewrite Hstart. destruct ds as [|d0 ds]; [discriminate|].
  unfold smin. rewrite fmap_cons. cbn [foldl nanmin].
  destruct (smin_from ds d0) as (d & Hd & Hle & Hmin & Hin).
  exists d. split; [exact Hd|].
  inversion Hall as [|? ? [Hd0 Hr0] Hall']; subst.
  assert (Hdin : In d (d0 :: ds)) by (destruct Hin; subst; simpl; tauto).
  assert (Hd_le : d <= 0).
  { rewrite Forall_forall in Hall. rewrite <- list_elem_of_In in Hdin.
    apply Hall in Hdin. tauto. }
  assert (Hdup : Sorted Qle (p :: p :: t) <-> Sorted Qle (p :: t)).
  { split; intros H.
    - now inversion H.
    - constructor; [exact H | constructor; lra]. }
  split; [exact Hd_le|]. rewrite <- Hdup, <- Hiff. split.
  - intros ->. rewrite Forall_forall. intros x Hx.
    assert (Hx0 : x <= 0 /\ Qred x = x).
    { rewrite Forall_forall in Hall. now apply Hall. }
    assert (H0x : 0 <= x).
    { apply list_elem_of_In in Hx. destruct Hx as [<-|Hx]; [exact Hle|].
      rewrite Forall_forall in Hmin. apply Hmin. now apply list_elem_of_In. }
    destruct Hx0 as [Hx0 Hxr]. rewrite <- Hxr. apply Qred_zero. lra.
  - intros Hs. rewrite Forall_forall in Hs.
    apply Hs. now apply list_elem_of_In.
Qed.

End MaxDrawdown.

(** ** The exception monad *)

Section ResultFacts.

Lemma bind_Ok {A B} (m : result A) (f : A -> result B) (b : B) :
  m ≫= f = Ok b -> exists a, m = Ok a /\ f a = Ok b.
Proof. destruct m as [a|e]; simpl; [eauto | discriminate]. Qed.

Lemma bind_Ok_l {A B} (m : result A) (f : A -> result B) (a : A) :
  m = Ok a -> m ≫= f = f a.
Proof. now intros ->. Qed.

End ResultFacts.

Ltac inv_bind H :=
  let a := fresh "v" in
  let Ha := fresh "Hv" in
  apply bind_Ok in H; destruct H as (a & Ha & H).

Ltac use_ok :=
  repeat match goal with
         | E : ?m = Ok _ |- context [?m ≫= _] =>
             rewrite (bind_Ok_l m _ _ E)
         end.

(** ** Emission of a signal from the score *)

Lemma signal_at_step_score cfg df i o :
  signal_at cfg df i = Ok o ->
  exists t price dict,
    step_score cfg df i = Ok t /\
    o = emit cfg (default 0%Z (index df !! i)) price dict t.
Proof.
  unfold signal_at, step_score. intros H.
  do 12 inv_bind H.
  injection H as <-. use_ok. eauto.
Qed.

Lemma emit_spec cfg d p dict t :
  let score := signal_score t in
  ((min_signal_strength cfg <= Z.abs score)%Z ->
     exists s, emit cfg d p dict t = Some s /\
       date s = d /\ price s = p /\ indicators s = dict /\ reasons s = fired t /\
       signal_type s = (if (0 <? score)%Z then BUY else SELL) /\
       (let v := inject_Z (Z.min (Z.abs score) 6) / 2 in
        (v <= 1.5 -> strength s = WEAK) /\
        (1.5 < v <= 2.5 -> strength s = MODERATE) /\
        (2.5 < v -> strength s = STRONG)) /\
       exists c, confidence s = Fin c /\ c == Qmin (inject_Z (Z.abs score) / 8) 1) /\
  ((Z.abs score < min_signal_strength cfg)%Z -> emit cfg d p dict t = None).
Proof.
  intros score. unfold emit. fold score. split.
  - intros Hge. apply Z.leb_le in Hge. rewrite Hge.
    eexists. split; [reflexivity|].
    cbn [date price indicators reasons signal_type strength confidence].
    rewrite !fdiv_Fin by (intros E; discriminate E).
    set (v := inject_Z (Z.min (Z.abs score) 6) / 2).
    set (c := inject_Z (Z.abs score) / 8).
    assert (Hw : fle (Fin (Qred v)) (Fin 1.5) = true <-> v <= 1.5).
    { rewrite fle_Fin. now rewrite Qred_correct. }
    assert (Hm : fle (Fin (Qred v)) (Fin 2.5) = true <-> v <= 2.5).
    { rewrite fle_Fin. now rewrite Qred_correct. }
    repeat split.
    + intros Hv. apply Hw in Hv. now rewrite Hv.
    + intros [Hlo Hhi]. apply Hm in Hhi. rewrite Hhi.
      destruct (fle (Fin (Qred v)) (Fin 1.5)); [|reflexivity].
      pose proof (proj1 Hw eq_refl). lra.
    + intros Hlo.
      destruct (fle (Fin (Qred v)) (Fin 1.5)); [pose proof (proj1 Hw eq_refl); lra|].
      destruct (fle (Fin (Qred v)) (Fin 2.5)); [pose proof (proj1 Hm eq_refl); lra|].
      reflexivity.
    + unfold py_min. destruct (flt (Fin 1) (Fin (Qred c))) eqn:E.
      * exists 1. split; [reflexivity|]. apply flt_Fin in E.
        rewrite Qred_correct in E. symmetry. apply Q.min_r. lra.
      * exists (Qred c). split; [reflexivity|]. apply flt_Fin_false in E.
        rewrite Qred_correct in *. symmetry. apply Q.min_l. exact E.
  - intros Hlt. apply Z.leb_gt in Hlt. now rewrite Hlt.
Qed.
Lemma M_bind_unfold {A B} (m : M A) (f : A -> M B) self :
  (m ≫= f) self =
  match m self with
  | (Ok a, self') => f a self'
  | (Raise e, self') => (Raise e, self')
  end.
Proof. reflexivity. Qed.

Lemma scan_step_inv i self r self' :
  scan_step i self = (r, self') ->
  config self' = config self /\ data self' = data self /\
  match r with
  | Ok _ => exists o, signal_at (config self) (data self) i = Ok o /\
                      signals self' = signals self ++ option_list o
  | Raise e => signal_at (config self) (data self) i = Raise e /\
               signals self' = signals self
  end.
Proof.
  unfold scan_step. destruct (signal_at (config self) (data self) i) as [[s|]|e];
    intros [= <- <-]; simpl; repeat split; eauto.
  - exists None. split; [reflexivity|]. simpl. now rewrite app_nil_r.
Qed.

Lemma for_each_scan_inv range : forall self self',
  for_each range scan_step self = (Ok tt, self') ->
  config self' = config self /\ data self' = data self /\
  exists new,
    signals self' = signals self ++ new /\
    Forall (fun s => exists i, In i range /\
                      signal_at (config self) (data self) i = Ok (Some s)) new.
Proof.
  induction range as [|i rest IH]; intros self self' H.
  - injection H as <-. repeat split. exists []. split; [now rewrite app_nil_r | constructor].
  - cbn [for_each] in H. rewrite M_bind_unfold in H.
    destruct (scan_step i self) as [[[]|e] self1] eqn:Hstep; [|discriminate].
    apply scan_step_inv in Hstep. destruct Hstep as (Hc & Hd & o & Ho & Hs).
    apply IH in H. destruct H as (Hc' & Hd' & new & Hnew & Hall).
    rewrite Hc, Hd in *. repeat split; [congruence | congruence |].
    exists (option_list o ++ new). split.
    + rewrite Hnew, Hs. now rewrite app_assoc.
    + apply Forall_app. split.
      * destruct o as [s|]; simpl; constructor; [|constructor].
        exists i. split; [now left | exact Ho].
      * eapply Forall_impl; [exact Hall|]. intros s (j & Hj & Hsj).
        exists j. split; [now right | exact Hsj].
Qed.

Lemma generate_advanced_signals_inv self sigs self' :
  generate_advanced_signals self = (Ok sigs, self') ->
  signals self' = sigs /\
  Forall (fun s => exists i, (scan_start <= i < len (data self))%nat /\
                    signal_at (config self) (data self) i = Ok (Some s)) sigs.
Proof.
  unfold generate_advanced_signals. rewrite !M_bind_unfold. cbn [set_signals].
  rewrite !M_bind_unfold. cbn [get_data with_signals data].
  rewrite !M_bind_unfold.
  set (self0 := with_signals [] self).
  destruct (for_each _ scan_step self0) as [[[]|e] self1] eqn:Hloop; [|discriminate].
  unfold get_signals. intros [= <- <-]. split; [reflexivity|].
  apply for_each_scan_inv in Hloop. destruct Hloop as (_ & _ & new & Hnew & Hall).
  cbn in Hnew. rewrite Hnew. eapply Forall_impl; [exact Hall|].
  intros s (i & Hi & Hs). exists i. split; [|exact Hs].
  apply in_seq in Hi. lia.
Qed.

Theorem signal_emitted_iff_score_reaches_threshold self i :
  is_ok (signal_at (config self) (data self) i) = true ->
  exists t, step_score (config self) (data self) i = Ok t /\
   let score := signal_score t in
   ((min_signal_strength (config self) <= Z.abs score)%Z ->
      exists s, scan_step i self = (Ok tt, with_signals (signals self ++ [s]) self) /\
        signal_type s = (if (0 <? score)%Z then BUY else SELL) /\
        (let v := inject_Z (Z.min (Z.abs score) 6) / 2 in
         (v <= 1.5 -> strength s = WEAK) /\
         (1.5 < v <= 2.5 -> strength s = MODERATE) /\
         (2.5 < v -> strength s = STRONG)) /\
        exists c, confidence s = Fin c /\ c == Qmin (inject_Z (Z.abs score) / 8) 1) /\
   ((Z.abs score < min_signal_strength (config self))%Z -> scan_step i self = (Ok tt, self)).
Proof.
  intros Hok. destruct (signal_at (config self) (data self) i) as [o|e] eqn:Hsig;
    [clear Hok | discriminate].
  destruct (signal_at_step_score _ _ _ _ Hsig) as (t & p & dict & Ht & Ho).
  exists t. split; [exact Ht|]. intros score.
  destruct (emit_spec (config self) (default 0%Z (index (data self) !! i)) p dict t)
    as [Hemit Hnone].
  fold score in Hemit, Hnone. unfold scan_step. rewrite Hsig, Ho. split.
  - intros Hge. destruct (Hemit Hge) as (s & -> & _ & _ & _ & _ & Hty & Hst & Hc).
    exists s. auto.
  - intros Hlt. now rewrite (Hnone Hlt).
Qed.

Lemma signal_emitted_iff_score_reaches_threshold_witness :
  exists t, step_score (config flat_analyzer) (data flat_analyzer) 50 = Ok t /\
   let score := signal_score t in
   ((min_signal_strength (config flat_analyzer) <= Z.abs score)%Z ->
      exists s, scan_step 50 flat_analyzer =
                (Ok tt, with_signals (signals flat_analyzer ++ [s]) flat_analyzer) /\
        signal_type s = (if (0 <? score)%Z then BUY else SELL) /\
        (let v := inject_Z (Z.min (Z.abs score) 6) / 2 in
         (v <= 1.5 -> strength s = WEAK) /\
         (1.5 < v <= 2.5 -> strength s = MODERATE) /\
         (2.5 < v -> strength s = STRONG)) /\
        exists c, confidence s = Fin c /\ c == Qmin (inject_Z (Z.abs score) / 8) 1) /\
   ((Z.abs score < min_signal_strength (config flat_analyzer))%Z ->
    scan_step 50 flat_analyzer = (Ok tt, flat_analyzer)).
Proof.
  apply (signal_emitted_iff_score_reaches_threshold flat_analyzer 50).
  vm_compute. reflexivity.
Defined.

(** ** Confidence of emitted signals *)

Lemma emit_Some cfg d p dict t s :
  emit cfg d p dict t = Some s ->
  (min_signal_strength cfg <= Z.abs (signal_score t))%Z /\
  exists c, confidence s = Fin c /\ c == Qmin (inject_Z (Z.abs (signal_score t)) / 8) 1.
Proof.
  intros H. destruct (emit_spec cfg d p dict t) as [Hemit Hnone].
  destruct (Z_lt_le_dec (Z.abs (signal_score t)) (min_signal_strength cfg)) as [Hlt|Hge].
  - rewrite (Hnone Hlt) in H. discriminate.
  - split; [exact Hge|].
    destruct (Hemit Hge) as (s' & Hs' & _ & _ & _ & _ & _ & _ & Hc).
    rewrite Hs' in H. injection H as <-. exact Hc.
Qed.

(** C10 (counterexample): with [min_signal_strength = 10] the scan emits
    a signal of score 12 whose confidence is 1, below 10/8. *)
Lemma confidence_floor_fails_above_eight : ~ confidence_floor_claim crowded_analyzer.
Proof.
  intros H.
  specialize (H (signals (snd (generate_advanced_signals crowded_analyzer)))
                (snd (generate_advanced_signals crowded_analyzer))).
  assert (Hrun : generate_advanced_signals crowded_analyzer =
                 (Ok (signals (snd (generate_advanced_signals crowded_analyzer))),
                  snd (generate_advanced_signals crowded_analyzer)))
    by (vm_compute; reflexivity).
  specialize (H Hrun).
  assert (Hconf : confidence <$> signals (snd (generate_advanced_signals crowded_analyzer))
                  = [Fin 1]) by (vm_compute; reflexivity).
  destruct (signals (snd (generate_advanced_signals crowded_analyzer))) as [|s l];
    [discriminate|].
  injection Hconf as Hs _. inversion H as [|? ? (c & Hc & Hlo & _) _]; subst.
  rewrite Hs in Hc. injection Hc as <-.
  revert Hlo. vm_compute. intros Hlo. apply Hlo. reflexivity.
Qed.

(** C10 (amended): every signal returned by the scan has a finite
    confidence between [min(min_signal_strength/8, 1)] and 1; when the
    threshold lies in 1..8 (as the default 2 does) the confidence is at
    least [min_signal_strength/8] and is not 0. *)
Theorem emitted_confidence_bounds self sigs self' :
  generate_advanced_signals self = (Ok sigs, self') ->
  Forall (fun s => exists c, confidence s = Fin c /\
            Qmin (inject_Z (min_signal_strength (config self)) / 8) 1 <= c /\
            c <= 1 /\
            ((0 < min_signal_strength (config self) <= 8)%Z ->
             inject_Z (min_signal_strength (config self)) / 8 <= c /\ 0 < c)) sigs.
Proof.
  intros Hrun. apply generate_advanced_signals_inv in Hrun. destruct Hrun as [_ Hall].
  eapply Forall_impl; [exact Hall|]. intros s (i & _ & Hsig).
  apply signal_at_step_score in Hsig. destruct Hsig as (t & p & dict & _ & Hs).
  symmetry in Hs. apply emit_Some in Hs. destruct Hs as (Hge & c & Hc & Hval).
  exists c. split; [exact Hc|].
  set (m := min_signal_strength (config self)) in *.
  set (a := Z.abs (signal_score t)) in *.
  assert (Hma : inject_Z m / 8 <= inject_Z a / 8).
  { apply Qmult_le_compat_r; [|discriminate]. now rewrite <- Zle_Qle. }
  split; [|split].
  - rewrite Hval. apply Q.min_le_compat_r. exact Hma.
  - rewrite Hval. apply Q.le_min_r.
  - intros [Hpos H8].
    assert (Hm8 : inject_Z m / 8 <= 1).
    { apply Qle_shift_div_r; [reflexivity|]. rewrite Zle_Qle in H8.
      change (inject_Z 8) with 8 in H8. lra. }
    assert (Hm0 : 0 < inject_Z m / 8).
    { apply Qlt_shift_div_l; [reflexivity|]. rewrite Zlt_Qlt in Hpos.
      change (inject_Z 0) with 0 in Hpos. lra. }
    assert (Hc' : inject_Z m / 8 <= c).
    { rewrite Hval. apply Q.min_glb; assumption. }
    split; [exact Hc' | lra].
Qed.

Lemma emitted_confidence_bounds_witness :
  Forall (fun s => exists c, confidence s = Fin c /\
            Qmin (inject_Z (min_signal_strength (config flat_analyzer)) / 8) 1 <= c /\
            c <= 1 /\
            ((0 < min_signal_strength (config flat_analyzer) <= 8)%Z ->
             inject_Z (min_signal_strength (config flat_analyzer)) / 8 <= c /\ 0 < c))
         (signals (snd (generate_advanced_signals flat_analyzer))).
Proof.
  apply (emitted_confidence_bounds flat_analyzer _
           (snd (generate_advanced_signals flat_analyzer))).
  vm_compute. reflexivity.
Defined.

(** ** Comparisons on undefined values *)

Section Undefined.

Lemma fcmp_nan_r a : fcmp a NaN = None.
Proof. now destruct a. Qed.

Lemma flt_nan_r a : flt a NaN = false.
Proof. unfold flt. now rewrite fcmp_nan_r. Qed.
Lemma fgt_nan_r a : fgt a NaN = false.
Proof. unfold fgt. now rewrite fcmp_nan_r. Qed.
Lemma fle_nan_r a : fle a NaN = false.
Proof. unfold fle. now rewrite fcmp_nan_r. Qed.
Lemma fge_nan_r a : fge a NaN = false.
Proof. unfold fge. now rewrite fcmp_nan_r. Qed.

Lemma fsub_nan_r a : fsub a NaN = NaN.
Proof. now destruct a. Qed.
Lemma fdiv_nan_r a : fdiv a NaN = NaN.
Proof. now destruct a. Qed.

Lemma getitem_Some (row : Row) name v : row !! name = Some v -> getitem row name = Ok v.
Proof. unfold getitem. now intros ->. Qed.

Lemma complete_getitem (row : Row) name :
  complete row -> In name scan_columns -> exists v, row !! name = Some v.
Proof.
  unfold complete. rewrite Forall_forall. intros H Hin.
  apply list_elem_of_In in Hin. exact (H _ Hin).
Qed.

End Undefined.

Ltac read_columns Hc Hp :=
  repeat match goal with
    | |- context [getitem ?row ?name] =>
        let v := fresh "v" in
        let Hv := fresh "Hv" in
        first [ destruct (complete_getitem row name Hc) as [v Hv]
              | destruct (complete_getitem row name Hp) as [v Hv] ];
        [ simpl; tauto | rewrite (getitem_Some row name v Hv) ]
    end.

Ltac nan_operand :=
  unfold undefined in *;
  repeat match goal with
    | H : _ \/ _ |- _ => destruct H as [H|H]
    end;
  match goal with
  | H : ?row !! ?name = Some NaN, H' : ?row !! ?name = Some ?v |- _ =>
      rewrite H in H'; injection H' as <-
  end.

Ltac no_rule_fires :=
  unfold if_elif, and_, cmp, const; cbn [mbind result_bind];
  rewrite ?flt_nan_r, ?fgt_nan_r, ?fle_nan_r, ?fge_nan_r;
  repeat match goal with
    | |- context [if ?b then _ else _] =>
        match b with
        | context [NaN] => change b with false; cbv iota
        | _ => destruct b; cbn [mbind result_bind]
        end;
        rewrite ?flt_nan_r, ?fgt_nan_r, ?fle_nan_r, ?fge_nan_r
    end;
  try reflexivity.

(** C6: at a scan step on complete rows, a rule block whose comparison
    reads an undefined (NaN) value leaves the tally as it was: the score
    is unchanged and no reason is appended.  The Bollinger block compares
    the band position computed from Close, BB_Lower and BB_Upper. *)
Theorem undefined_comparison_never_fires
  (cfg : Config) (current previous : Row) (t : Tally) :
  complete current -> complete previous ->
  (undefined current "RSI" -> rsi_signals cfg current t = Ok t) /\
  (undefined current "MACD" \/ undefined current "MACD_Signal" \/
   undefined previous "MACD" \/ undefined previous "MACD_Signal" ->
   macd_signals current previous t = Ok t) /\
  (forall close bb_lower bb_upper,
     close = NaN \/ bb_lower = NaN \/ bb_upper = NaN ->
     bollinger_signals (fdiv (fsub close bb_lower) (fsub bb_upper bb_lower)) t = Ok t) /\
  (undefined current "Stoch_K" \/ undefined current "Stoch_D" \/
   undefined previous "Stoch_K" \/ undefined previous "Stoch_D" ->
   stochastic_signals current previous t = Ok t) /\
  (undefined current "Williams_R" -> williams_signals current t = Ok t) /\
  (undefined current "CCI" -> cci_signals current t = Ok t) /\
  (undefined current "Close" \/ undefined current "SMA_20" \/
   undefined previous "Close" \/ undefined previous "SMA_20" ->
   sma20_signals current previous t = Ok t) /\
  (undefined current "SMA_50" \/ undefined current "SMA_200" \/
   undefined previous "SMA_50" \/ undefined previous "SMA_200" ->
   cross_signals current previous t = Ok t).
Proof.
  intros Hc Hp. repeat split.
  - intros H. unfold rsi_signals. read_columns Hc Hp. nan_operand. no_rule_fires.
  - intros H. unfold macd_signals. read_columns Hc Hp. nan_operand; no_rule_fires.
  - intros close bb_lower bb_upper H.
    assert (Hpos : fdiv (fsub close bb_lower) (fsub bb_upper bb_lower) = NaN).
    { destruct H as [->|[->| ->]].
      - reflexivity.
      - now rewrite !fsub_nan_r, fdiv_nan_r.
      - cbn [fsub]. now rewrite fdiv_nan_r. }
    rewrite Hpos. reflexivity.
  - intros H. unfold stochastic_signals. read_columns Hc Hp. nan_operand; no_rule_fires.
  - intros H. unfold williams_signals. read_columns Hc Hp. nan_operand. no_rule_fires.
  - intros H. unfold cci_signals. read_columns Hc Hp. nan_operand. no_rule_fires.
  - intros H. unfold sma20_signals. read_columns Hc Hp. nan_operand; no_rule_fires.
  - intros H. unfold cross_signals. read_columns Hc Hp. nan_operand; no_rule_fires.
Qed.

(** ** Golden and Death cross *)

Section Cross.

Lemma iloc_Ok df i :
  (i < len df)%nat ->
  iloc df i = Ok ((fun s : Series => at_ s i) <$> columns df).
Proof. unfold iloc. intros H. apply Nat.ltb_lt in H. now rewrite H. Qed.

Lemma row_lookup df i name s :
  columns df !! name = Some s ->
  getitem ((fun s : Series => at_ s i) <$> columns df) name = Ok (at_ s i).
Proof. intros H. unfold getitem. now rewrite lookup_fmap, H. Qed.

Lemma cross_contribution_eq df sma50 sma200 i :
  columns df !! "SMA_50" = Some sma50 ->
  columns df !! "SMA_200" = Some sma200 ->
  (0 < i < len df)%nat ->
  cross_contribution df i =
  if (fgt (at_ sma50 i) (at_ sma200 i) && fle (at_ sma50 (i - 1)) (at_ sma200 (i - 1)))%bool
  then Ok (fire 4 "Golden Cross" no_tally)
  else if (flt (at_ sma50 i) (at_ sma200 i) && fge (at_ sma50 (i - 1)) (at_ sma200 (i - 1)))%bool
       then Ok (fire (-4) "Death Cross" no_tally)
       else Ok no_tally.
Proof.
  intros H50 H200 Hi. unfold cross_contribution.
  rewrite !iloc_Ok by lia. cbn [mbind result_bind]. unfold cross_signals.
  rewrite !(row_lookup df _ _ _ H50), !(row_lookup df _ _ _ H200).
  unfold if_elif, and_, cmp. cbn [mbind result_bind].
  destruct (fgt (at_ sma50 i) (at_ sma200 i)), (flt (at_ sma50 i) (at_ sma200 i));
    cbn [mbind result_bind andb];
    destruct (fle (at_ sma50 (i - 1)) (at_ sma200 (i - 1))),
             (fge (at_ sma50 (i - 1)) (at_ sma200 (i - 1))); reflexivity.
Qed.

Lemma fgt_excludes a b : fgt a b = true -> flt a b = false /\ fle a b = false.
Proof. unfold fgt, flt, fle. destruct (fcmp a b) as [[]|]; intuition discriminate. Qed.

Lemma fle_excludes a b : fle a b = true -> fgt a b = false.
Proof. unfold fgt, fle. destruct (fcmp a b) as [[]|]; intuition discriminate. Qed.

Lemma not_fge_excludes a b : fge a b = false -> fgt a b = false.
Proof. unfold fgt, fge. destruct (fcmp a b) as [[]|]; intuition discriminate. Qed.

Lemma forallb_range (P : nat -> bool) (a n : nat) :
  forallb P (seq a n) = true -> forall s, (a <= s < a + n)%nat -> P s = true.
Proof.
  intros H s Hs. rewrite forallb_forall in H. apply H. apply in_seq. lia.
Qed.

Lemma spike_columns :
  (let df := averaged spike_closes in
   (columns df !! "SMA_50", columns df !! "SMA_200", len df))
  = (Some spike_sma50, Some spike_sma200, 202%nat).
Proof. vm_compute. reflexivity. Qed.

Lemma step_columns :
  (let df := averaged step_closes in
   (columns df !! "SMA_50", columns df !! "SMA_200", len df))
  = (Some step_sma50, Some step_sma200, 202%nat).
Proof. vm_compute. reflexivity. Qed.

(** C5 (counterexample): on the moving averages of [spike_closes] the
    averages cross upwards at row 200, and the Death Cross rule fires at
    row 201. *)
Lemma golden_cross_not_alone : ~ golden_cross_claim (averaged spike_closes) 200.
Proof.
  pose proof (f_equal (fun p => fst (fst p)) spike_columns) as H50.
  pose proof (f_equal (fun p => snd (fst p)) spike_columns) as H200.
  pose proof (f_equal snd spike_columns) as Hlen.
  cbn [fst snd] in H50, H200, Hlen.
  intros H. destruct (H _ _ H50 H200) as [_ Hother].
  - rewrite Hlen. unfold scan_start. lia.
  - vm_compute. reflexivity.
  - vm_compute. reflexivity.
  - specialize (Hother 201%nat).
    rewrite (cross_contribution_eq _ _ _ 201 H50 H200) in Hother by (rewrite Hlen; lia).
    rewrite Hlen in Hother. unfold scan_start in Hother.
    specialize (Hother ltac:(lia) ltac:(lia)).
    vm_compute in Hother. discriminate Hother.
Qed.

(** C5 (amended): when, in addition, SMA_50 is strictly below SMA_200 or
    one of them is undefined on every row from the one before the scan
    start up to [t-2], and SMA_50 is strictly above SMA_200 on every row
    from [t] on, the Golden Cross rule adds +4 at [t] and neither cross
    rule adds anything at any other scanned step. *)
Theorem single_golden_cross (df : DataFrame) (sma50 sma200 : Series) (t : nat) :
  columns df !! "SMA_50" = Some sma50 ->
  columns df !! "SMA_200" = Some sma200 ->
  (scan_start <= t < len df)%nat ->
  (forall s, (scan_start - 1 <= s < t - 1)%nat ->
             fge (at_ sma50 s) (at_ sma200 s) = false) ->
  fle (at_ sma50 (t - 1)) (at_ sma200 (t - 1)) = true ->
  (forall s, (t <= s < len df)%nat -> fgt (at_ sma50 s) (at_ sma200 s) = true) ->
  cross_contribution df t = Ok (fire 4 "Golden Cross" no_tally) /\
  forall s, (scan_start <= s < len df)%nat -> s <> t ->
            cross_contribution df s = Ok no_tally.
Proof.
  intros H50 H200 Ht Hbefore Hprev Hafter. unfold scan_start in *. split.
  - rewrite (cross_contribution_eq df sma50 sma200) by (auto; lia).
    rewrite (Hafter t) by lia. now rewrite Hprev.
  - intros s Hs Hne.
    rewrite (cross_contribution_eq df sma50 sma200) by (auto; lia).
    destruct (lt_eq_lt_dec s t) as [[Hlt|Heq]|Hgt]; [|contradiction|].
    + assert (Hcur : fgt (at_ sma50 s) (at_ sma200 s) = false).
      { destruct (Nat.eq_dec s (t - 1)%nat) as [->|Hn].
        - now apply fle_excludes.
        - apply not_fge_excludes, Hbefore. lia. }
      assert (Hpre : fge (at_ sma50 (s - 1)) (at_ sma200 (s - 1)) = false)
        by (apply Hbefore; lia).
      rewrite Hcur, Hpre. cbn [andb]. now rewrite andb_false_r.
    + destruct (fgt_excludes _ _ (Hafter s ltac:(lia))) as [Hl _].
      destruct (fgt_excludes _ _ (Hafter (s - 1)%nat ltac:(lia))) as [_ Hp].
      rewrite Hl, Hp. cbn [andb]. now rewrite andb_false_r.
Qed.

Lemma single_golden_cross_witness :
  cross_contribution (averaged step_closes) 200 = Ok (fire 4 "Golden Cross" no_tally) /\
  forall s, (scan_start <= s < len (averaged step_closes))%nat -> s <> 200%nat ->
            cross_contribution (averaged step_closes) s = Ok no_tally.
Proof.
  pose proof (f_equal (fun p => fst (fst p)) step_columns) as H50.
  pose proof (f_equal (fun p => snd (fst p)) step_columns) as H200.
  pose proof (f_equal snd step_columns) as Hlen.
  cbn [fst snd] in H50, H200, Hlen.
  apply (single_golden_cross (averaged step_closes) step_sma50 step_sma200 200).
  - exact H50.
  - exact H200.
  - rewrite Hlen. unfold scan_start. lia.
  - intros s Hs.
    apply (fun P => proj1 (negb_true_iff P)).
    apply (forallb_range (fun s => negb (fge (at_ step_sma50 s) (at_ step_sma200 s)))
             (scan_start - 1) 150); [vm_compute; reflexivity | exact Hs].
  - vm_compute. reflexivity.
  - intros s Hs. rewrite Hlen in Hs.
    apply (forallb_range (fun s => fgt (at_ step_sma50 s) (at_ step_sma200 s)) 200 2);
      [vm_compute; reflexivity | lia].
Defined.

End Cross.

Lemma max_drawdown_nonpositive_zero_iff_nondecreasing_witness :
  exists d : Q,
    RiskManager.calculate_max_drawdown (Fin <$> [100; 120; 90; 130]) = Fin d /\
    d <= 0 /\
    (d = 0 <-> Sorted Qle [100; 120; 90; 130]).
Proof.
  apply (max_drawdown_nonpositive_zero_iff_nondecreasing [100; 120; 90; 130]).
  - discriminate.
  - repeat constructor.
Defined.

Lemma undefined_comparison_never_fires_witness :
  let cfg := default_config in
  let current := row_at (data flat_analyzer) 50 in
  let previous := row_at (data flat_analyzer) 49 in
  let t := no_tally in
  (undefined current "RSI" -> rsi_signals cfg current t = Ok t) /\
  (undefined current "MACD" \/ undefined current "MACD_Signal" \/
   undefined previous "MACD" \/ undefined previous "MACD_Signal" ->
   macd_signals current previous t = Ok t) /\
  (forall close bb_lower bb_upper,
     close = NaN \/ bb_lower = NaN \/ bb_upper = NaN ->
     bollinger_signals (fdiv (fsub close bb_lower) (fsub bb_upper bb_lower)) t = Ok t) /\
  (undefined current "Stoch_K" \/ undefined current "Stoch_D" \/
   undefined previous "Stoch_K" \/ undefined previous "Stoch_D" ->
   stochastic_signals current previous t = Ok t) /\
  (undefined current "Williams_R" -> williams_signals current t = Ok t) /\
  (undefined current "CCI" -> cci_signals current t = Ok t) /\
  (undefined current "Close" \/ undefined current "SMA_20" \/
   undefined previous "Close" \/ undefined previous "SMA_20" ->
   sma20_signals current previous t = Ok t) /\
  (undefined current "SMA_50" \/ undefined current "SMA_200" \/
   undefined previous "SMA_50" \/ undefined previous "SMA_200" ->
   cross_signals current previous t = Ok t).
Proof.
  intros cfg current previous t.
  apply (undefined_comparison_never_fires cfg current previous t).
  - unfold complete, scan_columns.
    repeat (constructor; [vm_compute; eexists; reflexivity|]). constructor.
  - unfold complete, scan_columns.
    repeat (constructor; [vm_compute; eexists; reflexivity|]). constructor.
Defined.

(** At the first scanned row of the flat series the 200-row average, the
    stochastic pair, Williams %R and the CCI are all undefined. *)
Example flat_row_undefined :
  let current := row_at (data flat_analyzer) 50 in
  undefined current "SMA_200" /\ undefined current "Stoch_K" /\
  undefined current "Stoch_D" /\ undefined current "Williams_R" /\
  undefined current "CCI".
Proof. vm_compute. repeat split; reflexivity. Qed.

(** ** Running the indicator methods *)

Section Running.

Lemma bind_column {B} name s (f : Series -> M B) self :
  columns (data self) !! name = Some s -> (column name ≫= f) self = f s self.
Proof. intros H. rewrite M_bind_unfold. unfold column, col. now rewrite H. Qed.

Lemma bind_lift_Ok {A B} (r : result A) a (f : A -> M B) self :
  r = Ok a -> (lift r ≫= f) self = f a self.
Proof. now intros ->. Qed.

Lemma bind_lift_Raise {A B} (r : result A) e (f : A -> M B) self :
  r = Raise e -> (lift r ≫= f) self = (Raise e, self).
Proof. now intros ->. Qed.

Lemma bind_assign {B} name s (f : unit -> M B) self :
  (assign name s ≫= f) self = f tt (with_data (set_col name s (data self)) self).
Proof. reflexivity. Qed.

Lemma bind_get_config {B} (f : Config -> M B) self :
  (get_config ≫= f) self = f (config self) self.
Proof. reflexivity. Qed.

Lemma rolling_checked_None w agg s :
  (0 <= w)%Z ->
  rolling_checked w None agg s = Ok (rolling (Z.to_nat w) (Z.to_nat w) agg s).
Proof.
  intros Hw. unfold rolling_checked. cbn [mbind result_bind default].
  destruct (w <? 0)%Z eqn:E; [apply Z.ltb_lt in E; lia | reflexivity].
Qed.

Lemma rolling_checked_None_neg w agg s :
  (w < 0)%Z ->
  rolling_checked w None agg s =
  Raise (ValueError "window must be an integer 0 or greater").
Proof.
  intros Hw. unfold rolling_checked. cbn [mbind result_bind default].
  destruct (w <? 0)%Z eqn:E; [reflexivity | apply Z.ltb_ge in E; lia].
Qed.

Lemma ewm_mean_Ok span s :
  (1 <= span)%Z -> ewm_mean span s = Ok (ewm_adjusted (2 / (inject_Z span + 1)) s).
Proof.
  intros H. unfold ewm_mean.
  destruct (span <? 1)%Z eqn:E; [apply Z.ltb_lt in E; lia | reflexivity].
Qed.

Lemma ewm_mean_Raise span s :
  (span < 1)%Z -> ewm_mean span s = Raise (ValueError "span must satisfy: span >= 1").
Proof.
  intros H. unfold ewm_mean.
  destruct (span <? 1)%Z eqn:E; [reflexivity | apply Z.ltb_ge in E; lia].
Qed.

Ltac lookup_col H :=
  cbn [data with_data set_col columns];
  rewrite ?lookup_insert_ne by discriminate; exact H.

Lemma moving_averages_run self close :
  columns (data self) !! "Close" = Some close ->
  _calculate_moving_averages self =
  (Ok tt, with_data (moving_average_columns close (data self)) self).
Proof.
  intros Hclose. unfold _calculate_moving_averages, moving_average_columns, rolling_mean.
  do 4 (rewrite (bind_column "Close" close) by lookup_col Hclose;
        erewrite bind_lift_Ok by (apply rolling_checked_None; lia);
        rewrite bind_assign).
  do 2 (rewrite (bind_column "Close" close) by lookup_col Hclose;
        erewrite bind_lift_Ok by (apply ewm_mean_Ok; lia);
        rewrite bind_assign).
  rewrite (bind_column "Close" close) by lookup_col Hclose.
  erewrite bind_lift_Ok by (apply ewm_mean_Ok; lia).
  reflexivity.
Qed.

(** Before enough rows have been seen a full-window aggregate is NaN. *)
Lemma rolling_warmup (w : nat) agg (s : Series) (i : nat) :
  (i < length s)%nat -> (S i < w)%nat -> rolling w w agg s !! i = Some NaN.
Proof.
  intros Hi Hw. unfold rolling. rewrite list_lookup_fmap.
  rewrite lookup_seq_lt by exact Hi. cbn [fmap option_fmap option_map Nat.add].
  f_equal.
  assert (Hlen : (length (observations (window_at w s i)) < w)%nat).
  { unfold observations, window_at.
    eapply Nat.le_lt_trans; [apply length_filter|].
    rewrite length_drop, length_take. lia. }
  apply Nat.ltb_lt in Hlen. now rewrite Hlen.
Qed.

(** C2: the scan starts at row 50, below the 200 rows SMA_200 needs: at
    every scanned row before row 199 the frame filled in by
    [_calculate_moving_averages] holds NaN in SMA_200, which is what the
    Golden/Death cross comparison of that step reads. *)
Theorem scan_starts_before_sma200_is_defined
  (self : ProfessionalStockAnalyzer) (close : Series) (i : nat) :
  columns (data self) !! "Close" = Some close ->
  length close = len (data self) ->
  (scan_start <= i < 199)%nat ->
  (i < len (data self))%nat ->
  (scan_start < 200)%nat /\
  exists self' current,
    _calculate_moving_averages self = (Ok tt, self') /\
    iloc (data self') i = Ok current /\
    getitem current "SMA_200" = Ok NaN.
Proof.
  intros Hclose Hlen Hi Hrow. split; [unfold scan_start; lia|].
  eexists. eexists. split; [apply (moving_averages_run self close Hclose)|].
  split.
  - apply iloc_Ok. exact Hrow.
  - erewrite row_lookup.
    2:{ unfold moving_average_columns. cbn [data with_data set_col columns].
        rewrite !lookup_insert_ne by discriminate. apply lookup_insert_eq. }
    f_equal. unfold at_. rewrite rolling_warmup; [reflexivity | lia | lia].
Qed.

Lemma scan_starts_before_sma200_is_defined_witness :
  (scan_start < 200)%nat /\
  exists self' current,
    _calculate_moving_averages (fresh (history flat_closes flat_closes flat_closes))
    = (Ok tt, self') /\
    iloc (data self') 50 = Ok current /\
    getitem current "SMA_200" = Ok NaN.
Proof.
  apply (scan_starts_before_sma200_is_defined
           (fresh (history flat_closes flat_closes flat_closes))
           (Fin <$> flat_closes) 50).
  - vm_compute. reflexivity.
  - vm_compute. reflexivity.
  - unfold scan_start. lia.
  - vm_compute. lia.
Defined.

End Running.

(** ** Where the configured windows are checked *)

Section WindowChecks.
Context `{Libm}.

Lemma returns_iff_bind {A B} (r : result A) (f : A -> result B) b b' :
  returns_iff r b -> (forall a, returns_iff (f a) b') ->
  returns_iff (r ≫= f) (b && b').
Proof.
  unfold returns_iff. destruct b; cbn [andb].
  - intros [a ->] Hf. exact (Hf a).
  - intros [msg ->] _. exists msg. reflexivity.
Qed.

Lemma returns_iff_Ok {A} (a : A) : returns_iff (Ok a) true.
Proof. exists a. reflexivity. Qed.

Lemma returns_iff_true_r {A} (r : result A) b : returns_iff r (b && true) -> returns_iff r b.
Proof. now rewrite andb_true_r. Qed.

Lemma rolling_checked_None_iff w agg s :
  returns_iff (rolling_checked w None agg s) (0 <=? w)%Z.
Proof.
  destruct (0 <=? w)%Z eqn:E; cbn [returns_iff].
  - apply Z.leb_le in E. rewrite rolling_checked_None by exact E. eauto.
  - apply Z.leb_gt in E. rewrite rolling_checked_None_neg by exact E. eauto.
Qed.

Lemma rolling_checked_one_iff w agg s :
  returns_iff (rolling_checked w (Some 1%Z) agg s) (1 <=? w)%Z.
Proof.
  unfold rolling_checked. cbn [default]. change (1 <? 0)%Z with false. cbv iota.
  destruct (1 <=? w)%Z eqn:E; cbn [returns_iff].
  - apply Z.leb_le in E.
    destruct (w <? 1)%Z eqn:E1; [apply Z.ltb_lt in E1; lia|].
    cbn [mbind result_bind].
    destruct (w <? 0)%Z eqn:E2; [apply Z.ltb_lt in E2; lia|]. eauto.
  - apply Z.leb_gt in E.
    destruct (w <? 1)%Z eqn:E1; [|apply Z.ltb_ge in E1; lia].
    cbn [mbind result_bind]. eauto.
Qed.

Lemma ewm_mean_iff span s : returns_iff (ewm_mean span s) (1 <=? span)%Z.
Proof.
  destruct (1 <=? span)%Z eqn:E; cbn [returns_iff].
  - apply Z.leb_le in E. rewrite ewm_mean_Ok by exact E. eauto.
  - apply Z.leb_gt in E. rewrite ewm_mean_Raise by exact E. eauto.
Qed.

Lemma rsi_iff prices w : returns_iff (TechnicalIndicators.rsi prices w) (1 <=? w)%Z.
Proof.
  unfold TechnicalIndicators.rsi, rolling_mean.
  rewrite <- (andb_diag (1 <=? w)%Z).
  apply returns_iff_bind; [apply rolling_checked_one_iff|]. intros gain.
  apply returns_iff_true_r.
  apply returns_iff_bind; [apply rolling_checked_one_iff|]. intros loss.
  apply returns_iff_Ok.
Qed.

Lemma macd_iff prices fast slow signal :
  returns_iff (TechnicalIndicators.macd prices fast slow signal)
              ((1 <=? fast)%Z && ((1 <=? slow)%Z && (1 <=? signal)%Z)).
Proof.
  unfold TechnicalIndicators.macd.
  apply returns_iff_bind; [apply ewm_mean_iff|]. intros exp1.
  apply returns_iff_bind; [apply ewm_mean_iff|]. intros exp2.
  apply returns_iff_true_r.
  apply returns_iff_bind; [apply ewm_mean_iff|]. intros signal_line.
  apply returns_iff_Ok.
Qed.

Lemma bollinger_bands_iff prices w std_dev :
  returns_iff (TechnicalIndicators.bollinger_bands prices w std_dev) (0 <=? w)%Z.
Proof.
  unfold TechnicalIndicators.bollinger_bands, rolling_mean, rolling_std.
  rewrite <- (andb_diag (0 <=? w)%Z).
  apply returns_iff_bind; [apply rolling_checked_None_iff|]. intros sma.
  apply returns_iff_true_r.
  apply returns_iff_bind; [apply rolling_checked_None_iff|]. intros std.
  apply returns_iff_Ok.
Qed.

Lemma stochastic_iff high low close k d :
  returns_iff (TechnicalIndicators.stochastic high low close k d)
              ((0 <=? k)%Z && (0 <=? d)%Z).
Proof.
  unfold TechnicalIndicators.stochastic, rolling_mean, rolling_min, rolling_max.
  rewrite <- (andb_diag (0 <=? k)%Z), <- andb_assoc.
  apply returns_iff_bind; [apply rolling_checked_None_iff|]. intros lowest_low.
  apply returns_iff_bind; [apply rolling_checked_None_iff|]. intros highest_high.
  apply returns_iff_true_r.
  apply returns_iff_bind; [apply rolling_checked_None_iff|]. intros d_percent.
  apply returns_iff_Ok.
Qed.

Lemma williams_r_iff high low close : 
  returns_iff (TechnicalIndicators.williams_r high low close 14) true.
Proof.
  unfold TechnicalIndicators.williams_r, rolling_min, rolling_max.
  rewrite !rolling_checked_None by lia. cbn [mbind result_bind]. apply returns_iff_Ok.
Qed.

Lemma atr_iff high low close : 
  returns_iff (TechnicalIndicators.atr high low close 14) true.
Proof.
  unfold TechnicalIndicators.atr, rolling_mean.
  rewrite !rolling_checked_None by lia. apply returns_iff_Ok.
Qed.

Lemma cci_iff high low close : 
  returns_iff (TechnicalIndicators.cci high low close 20) true.
Proof.
  unfold TechnicalIndicators.cci, rolling_mean.
  rewrite !rolling_checked_None by lia. cbn [mbind result_bind]. apply returns_iff_Ok.
Qed.

Lemma preserved_refl self : preserved self self.
Proof. split; [reflexivity|]. apply Forall_forall. reflexivity. Qed.

Lemma preserved_trans a b c : preserved a b -> preserved b c -> preserved a c.
Proof.
  intros [Hc1 Hf1] [Hc2 Hf2]. split; [congruence|].
  rewrite Forall_forall in *. intros n Hn. rewrite (Hf2 n Hn). apply (Hf1 n Hn).
Qed.

Lemma price_columns_preserved self self' :
  preserved self self' ->
  Forall (fun n => is_Some (columns (data self) !! n)) price_columns ->
  Forall (fun n => is_Some (columns (data self') !! n)) price_columns.
Proof.
  intros [_ Hf] Hp. rewrite Forall_forall in *. intros n Hn.
  rewrite (Hf n); [apply (Hp n Hn)|]. apply elem_of_app. now left.
Qed.

Lemma checks_seq v1 v2 (m1 m2 : M unit) :
  checks v1 m1 -> checks v2 m2 ->
  checks (fun cfg => v1 cfg && v2 cfg) (m1 ;; m2).
Proof.
  intros H1 H2 self Hp.
  destruct (H1 self Hp) as (r1 & self1 & Hrun1 & Hpres1 & Hret1).
  rewrite M_bind_unfold, Hrun1. unfold returns_iff in Hret1.
  destruct (v1 (config self)) eqn:Ev1.
  - destruct Hret1 as [[] ->].
    destruct (H2 self1 (price_columns_preserved _ _ Hpres1 Hp))
      as (r2 & self2 & Hrun2 & Hpres2 & Hret2).
    exists r2, self2. split; [exact Hrun2|]. split.
    + eapply preserved_trans; eassumption.
    + destruct Hpres1 as [Hc _]. rewrite Hc in Hret2. exact Hret2.
  - destruct Hret1 as [msg ->]. exists (Raise (ValueError msg)), self1.
    split; [reflexivity|]. split; [exact Hpres1|]. exists msg. reflexivity.
Qed.

(** The shape shared by the seven indicator methods: read columns, call
    the indicator, store what it returned. *)
Lemma checks_call {A} valid (m : M unit)
  (call : ProfessionalStockAnalyzer -> result A) :
  (forall self,
     Forall (fun n => is_Some (columns (data self) !! n)) price_columns ->
     returns_iff (call self) (valid (config self)) /\
     (forall a, call self = Ok a ->
                exists self', m self = (Ok tt, self') /\ preserved self self') /\
     (forall e, call self = Raise e -> m self = (Raise e, self))) ->
  checks valid m.
Proof.
  intros Hm self Hp. destruct (Hm self Hp) as (Hret & Hok & Hraise).
  unfold returns_iff in *. destruct (valid (config self)).
  - destruct Hret as [a Ha]. destruct (Hok a Ha) as (self' & Hrun & Hpres).
    exists (Ok tt), self'. repeat split; try assumption; try apply Hpres. now exists tt.
  - destruct Hret as [msg Hmsg]. exists (Raise (ValueError msg)), self.
    split; [now apply Hraise|]. split; [apply preserved_refl|]. now exists msg.
Qed.

End WindowChecks.

Lemma price_columns_inv (df : DataFrame) :
  Forall (fun n => is_Some (columns df !! n)) price_columns ->
  exists close high low,
    columns df !! "Close" = Some close /\
    columns df !! "High" = Some high /\
    columns df !! "Low" = Some low.
Proof.
  unfold price_columns. intros Hp.
  apply Forall_cons in Hp as [[close Hc] Hp].
  apply Forall_cons in Hp as [[high Hh] Hp].
  apply Forall_cons in Hp as [[low Hl] _]. eauto 7.
Qed.

Ltac price_cols Hp close high low :=
  destruct (price_columns_inv _ Hp) as (close & high & low & Hclose & Hhigh & Hlow).

Ltac stored :=
  eexists; split; [reflexivity|];
  split; [reflexivity|];
  unfold price_columns, moving_average_names; cbn [app];
  repeat (constructor;
          [cbn [data with_data set_col columns];
           rewrite !lookup_insert_ne by discriminate; reflexivity|]);
  constructor.

Section Methods.
Context `{Libm}.

Lemma rsi_checks : checks (fun cfg => (1 <=? rsi_window cfg)%Z) _calculate_rsi.
Proof.
  apply (checks_call _ _
           (fun self => TechnicalIndicators.rsi
                          (default [] (columns (data self) !! "Close"))
                          (rsi_window (config self)))).
  intros self Hp. price_cols Hp close high low. rewrite Hclose. cbn [default].
  split; [apply rsi_iff|]. unfold _calculate_rsi. split.
  - intros a Ha. rewrite (bind_column "Close" close) by exact Hclose.
    rewrite bind_get_config. erewrite bind_lift_Ok by exact Ha.
    unfold assign. stored.
  - intros e He. rewrite (bind_column "Close" close) by exact Hclose.
    rewrite bind_get_config. now erewrite bind_lift_Raise by exact He.
Qed.

Lemma macd_checks :
  checks (fun cfg => (1 <=? macd_fast cfg)%Z &&
                     ((1 <=? macd_slow cfg)%Z && (1 <=? macd_signal cfg)%Z))
         _calculate_macd.
Proof.
  apply (checks_call _ _
           (fun self => TechnicalIndicators.macd
                          (default [] (columns (data self) !! "Close"))
                          (macd_fast (config self)) (macd_slow (config self))
                          (macd_signal (config self)))).
  intros self Hp. price_cols Hp close high low. rewrite Hclose. cbn [default].
  split; [apply macd_iff|]. unfold _calculate_macd. split.
  - intros [[macd signal] histogram] Ha.
    rewrite (bind_column "Close" close) by exact Hclose.
    rewrite bind_get_config. erewrite bind_lift_Ok by exact Ha.
    cbv beta iota. rewrite !bind_assign. unfold assign. stored.
  - intros e He. rewrite (bind_column "Close" close) by exact Hclose.
    rewrite bind_get_config. now erewrite bind_lift_Raise by exact He.
Qed.

Lemma bollinger_checks :
  checks (fun cfg => (0 <=? bb_window cfg)%Z) _calculate_bollinger_bands.
Proof.
  apply (checks_call _ _
           (fun self => TechnicalIndicators.bollinger_bands
                          (default [] (columns (data self) !! "Close"))
                          (bb_window (config self)) (bb_std (config self)))).
  intros self Hp. price_cols Hp close high low. rewrite Hclose. cbn [default].
  split; [apply bollinger_bands_iff|]. unfold _calculate_bollinger_bands. split.
  - intros [[upper middle] lower] Ha.
    rewrite (bind_column "Close" close) by exact Hclose.
    rewrite bind_get_config. erewrite bind_lift_Ok by exact Ha.
    cbv beta iota. rewrite !bind_assign. unfold assign. stored.
  - intros e He. rewrite (bind_column "Close" close) by exact Hclose.
    rewrite bind_get_config. now erewrite bind_lift_Raise by exact He.
Qed.

Lemma stochastic_checks :
  checks (fun cfg => (0 <=? stoch_k cfg)%Z && (0 <=? stoch_d cfg)%Z)
         _calculate_stochastic.
Proof.
  apply (checks_call _ _
           (fun self => TechnicalIndicators.stochastic
                          (default [] (columns (data self) !! "High"))
                          (default [] (columns (data self) !! "Low"))
                          (default [] (columns (data self) !! "Close"))
                          (stoch_k (config self)) (stoch_d (config self)))).
  intros self Hp. price_cols Hp close high low.
  rewrite Hclose, Hhigh, Hlow. cbn [default].
  split; [apply stochastic_iff|]. unfold _calculate_stochastic. split.
  - intros [k_percent d_percent] Ha.
    rewrite (bind_column "High" high) by exact Hhigh.
    rewrite (bind_column "Low" low) by exact Hlow.
    rewrite (bind_column "Close" close) by exact Hclose.
    rewrite bind_get_config. erewrite bind_lift_Ok by exact Ha.
    cbv beta iota. rewrite !bind_assign. unfold assign. stored.
  - intros e He.
    rewrite (bind_column "High" high) by exact Hhigh.
    rewrite (bind_column "Low" low) by exact Hlow.
    rewrite (bind_column "Close" close) by exact Hclose.
    rewrite bind_get_config. now erewrite bind_lift_Raise by exact He.
Qed.

Ltac fixed_window_checks call iff :=
  apply (checks_call (fun _ => true) _
           (fun self => call (default [] (columns (data self) !! "High"))
                             (default [] (columns (data self) !! "Low"))
                             (default [] (columns (data self) !! "Close"))));
  let self := fresh "self" in
  let Hp := fresh "Hp" in
  let close := fresh "close" in
  let high := fresh "high" in
  let low := fresh "low" in
  let Hc := fresh "Hc" in
  let Hh := fresh "Hh" in
  let Hl := fresh "Hl" in
  intros self Hp;
  destruct (price_columns_inv _ Hp) as (close & high & low & Hc & Hh & Hl);
  rewrite Hc, Hh, Hl; cbn [default];
  split; [apply iff|]; split;
  [ let a := fresh "a" in
    let Ha := fresh "Ha" in
    intros a Ha;
    rewrite (bind_column "High" high) by exact Hh;
    rewrite (bind_column "Low" low) by exact Hl;
    rewrite (bind_column "Close" close) by exact Hc;
    erewrite bind_lift_Ok by exact Ha; unfold assign; stored
  | let e := fresh "e" in
    let He := fresh "He" in
    intros e He;
    rewrite (bind_column "High" high) by exact Hh;
    rewrite (bind_column "Low" low) by exact Hl;
    rewrite (bind_column "Close" close) by exact Hc;
    now erewrite bind_lift_Raise by exact He ].

Lemma williams_r_checks : checks (fun _ => true) _calculate_williams_r.
Proof.
  unfold _calculate_williams_r.
  fixed_window_checks (fun h l c => TechnicalIndicators.williams_r h l c 14) williams_r_iff.
Qed.

Lemma atr_checks : checks (fun _ => true) _calculate_atr.
Proof.
  unfold _calculate_atr.
  fixed_window_checks (fun h l c => TechnicalIndicators.atr h l c 14) atr_iff.
Qed.

Lemma cci_checks : checks (fun _ => true) _calculate_cci.
Proof.
  unfold _calculate_cci.
  fixed_window_checks (fun h l c => TechnicalIndicators.cci h l c 20) cci_iff.
Qed.

(** Everything after the moving averages. *)
Lemma configured_indicators_checks :
  checks valid_windows
    (_calculate_rsi;; _calculate_macd;; _calculate_bollinger_bands;;
     _calculate_stochastic;; _calculate_williams_r;; _calculate_atr;;
     _calculate_cci).
Proof.
  intros self Hp.
  destruct (checks_seq _ _ _ _ rsi_checks
             (checks_seq _ _ _ _ macd_checks
               (checks_seq _ _ _ _ bollinger_checks
                 (checks_seq _ _ _ _ stochastic_checks
                   (checks_seq _ _ _ _ williams_r_checks
                     (checks_seq _ _ _ _ atr_checks cci_checks))))) self Hp)
    as (r & self' & Hrun & Hpres & Hret).
  exists r, self'. split; [exact Hrun|]. split; [exact Hpres|].
  cbn beta in Hret. unfold valid_windows.
  rewrite !andb_true_r in Hret. rewrite <- !andb_assoc. rewrite <- !andb_assoc in Hret.
  exact Hret.
Qed.

End Methods.

Section ConfigChecks.

(** C7 (counterexample): with [rsi_window = 0] the call does raise, but
    the moving-average columns have been computed and stored by then. *)
Lemma zero_rsi_window_rejected_late :
  ~ @rejected_before_computation approx_libm zero_rsi_window_analyzer.
Proof.
  intros Hclaim.
  assert (Hnp : non_positive_window (config zero_rsi_window_analyzer) = true)
    by (vm_compute; reflexivity).
  destruct (Hclaim Hnp) as [e He].
  assert (Hafter : has_column
            (data (snd (@calculate_all_indicators approx_libm zero_rsi_window_analyzer)))
            "SMA_10" = true) by (vm_compute; reflexivity).
  assert (Hbefore : has_column (data zero_rsi_window_analyzer) "SMA_10" = false)
    by (vm_compute; reflexivity).
  rewrite He in Hafter. cbn [snd] in Hafter. rewrite Hbefore in Hafter. discriminate Hafter.
Qed.

(** A zero [bb_window] is not rejected at all. *)
Example zero_bb_window_accepted :
  non_positive_window (config zero_bb_window_analyzer) = true /\
  fst (@calculate_all_indicators approx_libm zero_bb_window_analyzer) = Ok tt.
Proof. vm_compute. split; reflexivity. Qed.

(** C7 (amended): the configuration is not checked before the
    computation.  On a frame with the price columns,
    [calculate_all_indicators] first computes and stores the seven
    moving-average columns; it then returns when [valid_windows] accepts
    the configuration and otherwise raises the ValueError of the window
    routine that met the bad value, with the moving averages still in the
    frame. *)
Theorem windows_checked_after_moving_averages `{Libm}
  (self : ProfessionalStockAnalyzer) :
  Forall (fun n => is_Some (columns (data self) !! n)) price_columns ->
  exists r self' close,
    columns (data self) !! "Close" = Some close /\
    calculate_all_indicators self = (r, self') /\
    Forall (fun n => columns (data self') !! n =
                     columns (moving_average_columns close (data self)) !! n)
           moving_average_names /\
    returns_iff r (valid_windows (config self)).
Proof.
  intros Hp. destruct (price_columns_inv _ Hp) as (close & high & low & Hc & Hh & Hl).
  unfold calculate_all_indicators. rewrite M_bind_unfold.
  rewrite (moving_averages_run self close Hc).
  set (self1 := with_data (moving_average_columns close (data self)) self).
  assert (Hp1 : Forall (fun n => is_Some (columns (data self1) !! n)) price_columns).
  { unfold price_columns, self1, moving_average_columns.
    cbn [data with_data set_col columns].
    repeat (constructor; [rewrite !lookup_insert_ne by discriminate; eauto|]).
    constructor. }
  destruct (configured_indicators_checks self1 Hp1) as (r & self' & Hrun & [Hcfg Hcols] & Hret).
  exists r, self', close. split; [exact Hc|]. split; [exact Hrun|]. split.
  - apply Forall_app in Hcols as [_ Hma]. exact Hma.
  - exact Hret.
Qed.

Lemma windows_checked_after_moving_averages_witness :
  exists r self' close,
    columns (data zero_rsi_window_analyzer) !! "Close" = Some close /\
    @calculate_all_indicators approx_libm zero_rsi_window_analyzer = (r, self') /\
    Forall (fun n => columns (data self') !! n =
                     columns (moving_average_columns close
                                (data zero_rsi_window_analyzer)) !! n)
           moving_average_names /\
    returns_iff r (valid_windows (config zero_rsi_window_analyzer)).
Proof.
  apply (@windows_checked_after_moving_averages approx_libm zero_rsi_window_analyzer).
  unfold price_columns.
  repeat (constructor; [vm_compute; eexists; reflexivity|]). constructor.
Defined.

End ConfigChecks.

(** ** The ATR used by the risk snapshot *)

Section RiskAtr.

Lemma has_column_Some df name s : columns df !! name = Some s -> has_column df name = true.
Proof. intros H. unfold has_column. apply bool_decide_eq_true. rewrite H. eauto. Qed.

Lemma has_column_None df name : columns df !! name = None -> has_column df name = false.
Proof.
  intros H. unfold has_column. apply bool_decide_eq_false. rewrite H.
  intros [x Hx]. discriminate Hx.
Qed.

Lemma iloc_last_Some (s : Series) v : last s = Some v -> iloc_last s = Ok v.
Proof. unfold iloc_last. now intros ->. Qed.

(** C3 (amended): on a non-empty frame the snapshot takes as ATR the last
    value of the ATR column whenever that column exists, defined or not,
    and 2% of the last close only when the frame has no ATR column;
    stop-loss and take-profit are the last close minus twice and plus
    three times that ATR. *)
Theorem atr_fallback_only_without_column `{Libm}
  (self : ProfessionalStockAnalyzer) (account_balance : fl)
  (close returns : Series) (price atr : fl) :
  empty (data self) = false ->
  columns (data self) !! "Close" = Some close -> last close = Some price ->
  columns (data self) !! "Returns" = Some returns ->
  ((exists atr_col, columns (data self) !! "ATR" = Some atr_col /\
                    last atr_col = Some atr) \/
   (columns (data self) !! "ATR" = None /\ atr = fmul price (Fin 0.02))) ->
  exists m,
    calculate_risk_metrics account_balance self =
      (Ok (Some m), with_risk_metrics (Some m) self) /\
    stop_loss m = fsub price (fmul (Fin 2) atr) /\
    take_profit m = fadd price (fmul (Fin 3) atr).
Proof.
  intros Hne Hclose Hprice Hret Hatr. unfold calculate_risk_metrics.
  rewrite M_bind_unfold. cbn [get_data]. rewrite Hne.
  rewrite (bind_column "Close" close) by exact Hclose.
  erewrite bind_lift_Ok by (apply iloc_last_Some; exact Hprice).
  rewrite M_bind_unfold.
  assert (Hrun : (if has_column (data self) "ATR"
                  then column "ATR" ≫= (fun a => lift (iloc_last a))
                  else mret (fmul price (Fin 0.02))) self = (Ok atr, self)).
  { destruct Hatr as [(atr_col & Hcol & Hlast) | [Hnone ->]].
    - rewrite (has_column_Some _ _ _ Hcol).
      rewrite (bind_column "ATR" atr_col) by exact Hcol.
      unfold lift. now rewrite (iloc_last_Some _ _ Hlast).
    - now rewrite (has_column_None _ _ Hnone). }
  rewrite Hrun.
  rewrite (bind_column "Returns" returns) by exact Hret.
  rewrite bind_get_config.
  rewrite (bind_column "Close" close) by exact Hclose.
  eexists. split; [reflexivity|]. split; reflexivity.
Qed.

Lemma atr_fallback_only_without_column_witness :
  exists m,
    @calculate_risk_metrics approx_libm (Fin 100000) short_analyzer =
      (Ok (Some m), with_risk_metrics (Some m) short_analyzer) /\
    stop_loss m = fsub (Fin 50) (fmul (Fin 2) NaN) /\
    take_profit m = fadd (Fin 50) (fmul (Fin 3) NaN).
Proof.
  apply (@atr_fallback_only_without_column approx_libm short_analyzer (Fin 100000)
           (repeat (Fin 50) 10) (NaN :: repeat (Fin 0) 9) (Fin 50) NaN).
  - vm_compute. reflexivity.
  - vm_compute. reflexivity.
  - vm_compute. reflexivity.
  - vm_compute. reflexivity.
  - left. exists (repeat NaN 10). split; vm_compute; reflexivity.
Defined.

(** C3 (counterexample): ten flat bars give an ATR column whose last
    value is NaN; the stop-loss is then NaN, not the close minus twice 2%
    of it. *)
Lemma undefined_atr_is_not_replaced :
  ~ @atr_fallback_claim approx_libm short_analyzer (Fin 100000).
Proof.
  intros Hclaim.
  assert (Hclose : columns (data short_analyzer) !! "Close" = Some (repeat (Fin 50) 10))
    by (vm_compute; reflexivity).
  assert (Hatr : columns (data short_analyzer) !! "ATR" = Some (repeat NaN 10))
    by (vm_compute; reflexivity).
  destruct (Hclaim _ (Fin 50) _ Hclose eq_refl Hatr eq_refl) as (m & self' & Hrun & Hsl & _).
  assert (Hfact : match fst (@calculate_risk_metrics approx_libm (Fin 100000) short_analyzer) with
                  | Ok (Some m) => stop_loss m
                  | _ => Fin 0
                  end = NaN) by (vm_compute; reflexivity).
  rewrite Hrun in Hfact. cbn [fst] in Hfact. rewrite Hsl in Hfact.
  vm_compute in Hfact. discriminate Hfact.
Qed.

End RiskAtr.

(** ** RSI *)

Section Rsi.

Lemma fsum_from_finite (s : Series) : forall a : Q,
  all_finite s -> exists q, foldl fadd (Fin a) s = Fin q.
Proof.
  induction s as [|x t IH]; intros a Hs; [now exists a|].
  inversion Hs as [|? ? Hx Ht]; subst. destruct x; try discriminate Hx.
  cbn [foldl fadd]. apply IH. exact Ht.
Qed.

Lemma observations_finite (s : Series) : all_finite s -> observations s = s.
Proof.
  unfold observations. induction s as [|x t IH]; intros Hs; [reflexivity|].
  inversion Hs as [|? ? Hx Ht]; subst. destruct x; try discriminate Hx.
  rewrite filter_cons_True by reflexivity. f_equal. now apply IH.
Qed.

Lemma mean_finite (s : Series) :
  all_finite s -> s <> [] -> exists q, mean s = Fin q.
Proof.
  intros Hs Hne. unfold mean. rewrite observations_finite by exact Hs.
  destruct (fsum_from_finite s 0 Hs) as [q Hq]. unfold fsum. rewrite Hq.
  unfold of_nat. rewrite fdiv_Fin; [eauto|].
  destruct s as [|x t]; [congruence|]. cbn [length].
  intros E. unfold Qeq in E. simpl in E. lia.
Qed.

Lemma length_rolling w m agg (s : Series) : length (rolling w m agg s) = length s.
Proof. unfold rolling. now rewrite length_fmap, length_seq. Qed.

(** With one required observation, a rolling mean over finite values is
    finite at every position. *)
Lemma rolling_mean_one_finite (w : nat) (s : Series) (i : nat) :
  (1 <= w)%nat -> all_finite s -> (i < length s)%nat ->
  exists q, rolling w 1 mean s !! i = Some (Fin q).
Proof.
  intros Hw Hs Hi. unfold rolling. rewrite list_lookup_fmap.
  rewrite lookup_seq_lt by exact Hi. cbn [fmap option_fmap option_map Nat.add].
  assert (Hwin : all_finite (window_at w s i)).
  { unfold window_at, all_finite. apply Forall_drop, Forall_take. exact Hs. }
  assert (Hlen : (1 <= length (window_at w s i))%nat).
  { unfold window_at. rewrite length_drop, length_take. lia. }
  rewrite observations_finite by exact Hwin.
  destruct (length (window_at w s i)) as [|n] eqn:En; [lia|].
  cbn [Nat.ltb Nat.leb Nat.eqb orb].
  destruct (mean_finite (window_at w s i) Hwin) as [q Hq].
  { intros E. rewrite E in En. discriminate En. }
  exists q. now rewrite Hq.
Qed.

Lemma fsub_nan_or_finite (l : list Q) : forall l2 : Series,
  Forall (fun y => y = NaN \/ is_finite y = true) l2 ->
  Forall (fun y => y = NaN \/ is_finite y = true) (zip_with fsub (Fin <$> l) l2).
Proof.
  induction l as [|a t IH]; intros l2 H2; [constructor|].
  destruct l2 as [|y t2]; [constructor|].
  inversion H2 as [|? ? Hy Ht]; subst. rewrite fmap_cons. cbn [zip_with].
  constructor; [|now apply IH].
  destruct Hy as [->|Hy]; [now left|]. destruct y; try discriminate Hy. now right.
Qed.

Lemma removelast_fmap_Fin (l : list Q) : removelast (Fin <$> l) = Fin <$> removelast l.
Proof.
  induction l as [|a t IH]; [reflexivity|].
  destruct t as [|b t']; [reflexivity|].
  change (removelast (Fin <$> a :: b :: t')) with (Fin a :: removelast (Fin <$> b :: t')).
  rewrite IH. reflexivity.
Qed.

Lemma diff_nan_or_finite (prices : list Q) :
  Forall (fun y => y = NaN \/ is_finite y = true) (diff (Fin <$> prices)).
Proof.
  unfold diff, binop. apply fsub_nan_or_finite.
  destruct prices as [|a t]; [constructor|].
  unfold shift. rewrite fmap_cons. constructor; [now left|].
  change (Fin a :: (Fin <$> t)) with (Fin <$> (a :: t)).
  rewrite removelast_fmap_Fin. apply Forall_fmap, Forall_forall. intros x _. now right.
Qed.

Lemma length_diff (s : Series) : length (diff s) = length s.
Proof.
  unfold diff, binop. rewrite length_zip_with.
  destruct s as [|x t]; [reflexivity|]. unfold shift. cbn [length].
  assert (H : length (removelast (x :: t)) = length t).
  { clear. revert x. induction t as [|y t IH]; intros x; [reflexivity|].
    change (removelast (x :: y :: t)) with (x :: removelast (y :: t)).
    cbn [length]. now rewrite IH. }
  rewrite H. lia.
Qed.

Lemma gains_finite (prices : list Q) :
  all_finite (where_ (fun d => fgt d (Fin 0)) (Fin 0) (diff (Fin <$> prices))).
Proof.
  unfold where_, all_finite. apply Forall_fmap.
  eapply Forall_impl; [apply diff_nan_or_finite|].
  intros x [->|Hx]; [reflexivity|]. unfold compose.
  destruct (fgt x (Fin 0)); [exact Hx | reflexivity].
Qed.

Lemma replace_lookup old new (s : Series) i v :
  s !! i = Some v -> replace old new s !! i = Some (if feqb v old then new else v).
Proof. intros H. unfold replace. now rewrite list_lookup_fmap, H. Qed.

(** C1: where the rolling average loss is exactly 0 the loss is replaced
    by infinity before the division, which makes the relative strength 0
    and the RSI 0 (not 100), on every finite price series and every
    window the rolling mean accepts. *)
Theorem rsi_is_zero_where_average_loss_is_zero
  (prices : list Q) (window : Z) (loss r : Series) (i : nat) (v : fl) :
  rsi_loss (Fin <$> prices) window = Ok loss ->
  loss !! i = Some v -> feqb v (Fin 0) = true ->
  TechnicalIndicators.rsi (Fin <$> prices) window = Ok r ->
  r !! i = Some (Fin 0).
Proof.
  intros Hloss Hi Hzero Hrsi. unfold TechnicalIndicators.rsi in Hrsi.
  fold (rsi_loss (Fin <$> prices) window) in Hrsi. rewrite Hloss in Hrsi.
  inv_bind Hrsi. cbn [mbind result_bind] in Hrsi. injection Hrsi as <-.
  rename v0 into gain.
  assert (Hw : (1 <= window)%Z).
  { pose proof (rolling_checked_one_iff window mean
                  (where_ (fun d => fgt d (Fin 0)) (Fin 0) (diff (Fin <$> prices)))) as Hc.
    unfold rolling_mean in Hv. rewrite Hv in Hc.
    destruct (1 <=? window)%Z eqn:E; [now apply Z.leb_le in E|].
    destruct Hc as [msg Hmsg]. discriminate Hmsg. }
  assert (Hgain : gain = rolling (Z.to_nat window) 1 mean
                    (where_ (fun d => fgt d (Fin 0)) (Fin 0) (diff (Fin <$> prices)))).
  { unfold rolling_mean, rolling_checked in Hv. cbn [default] in Hv.
    change (1 <? 0)%Z with false in Hv. cbv iota in Hv.
    destruct (window <? 1)%Z eqn:E1; [apply Z.ltb_lt in E1; lia|].
    cbn [mbind result_bind] in Hv.
    destruct (window <? 0)%Z eqn:E2; [apply Z.ltb_lt in E2; lia|].
    injection Hv as <-. reflexivity. }
  assert (Hlenloss : length loss = length prices).
  { unfold rsi_loss, rolling_mean, rolling_checked in Hloss. cbn [default] in Hloss.
    change (1 <? 0)%Z with false in Hloss. cbv iota in Hloss.
    destruct (window <? 1)%Z eqn:E1; [apply Z.ltb_lt in E1; lia|].
    cbn [mbind result_bind] in Hloss.
    destruct (window <? 0)%Z eqn:E2; [apply Z.ltb_lt in E2; lia|].
    injection Hloss as <-. rewrite length_rolling, length_fmap.
    unfold where_. now rewrite length_fmap, length_diff, length_fmap. }
  assert (Hilt : (i < length prices)%nat).
  { rewrite <- Hlenloss. eapply lookup_lt_Some. exact Hi. }
  destruct (rolling_mean_one_finite (Z.to_nat window)
              (where_ (fun d => fgt d (Fin 0)) (Fin 0) (diff (Fin <$> prices))) i)
    as [g Hg].
  { lia. }
  { apply gains_finite. }
  { unfold where_. now rewrite length_fmap, length_diff, length_fmap. }
  rewrite <- Hgain in Hg.
  rewrite list_lookup_fmap. unfold binop. rewrite lookup_zip_with.
  rewrite Hg. cbn [mbind option_bind].
  rewrite (replace_lookup _ _ _ _ _ Hi), Hzero. reflexivity.
Qed.

Lemma rsi_is_zero_where_average_loss_is_zero_witness :
  [Fin 0; Fin 0; Fin 0; Fin (200 # 3); Fin 75] !! 2%nat = Some (Fin 0).
Proof.
  apply (rsi_is_zero_where_average_loss_is_zero [50; 51; 52; 51; 53] 3
           [Fin 0; Fin 0; Fin 0; Fin (1 # 3); Fin (1 # 3)]
           [Fin 0; Fin 0; Fin 0; Fin (200 # 3); Fin 75] 2 (Fin 0)).
  - vm_compute. reflexivity.
  - reflexivity.
  - reflexivity.
  - vm_compute. reflexivity.
Defined.

(** The flat scenario: 250 closes at 50 with the default window have an
    average loss of 0 everywhere and an RSI of 0 everywhere. *)
Example rsi_of_flat_series :
  rsi_loss (Fin <$> repeat 50 250) 14 = Ok (repeat (Fin 0) 250) /\
  TechnicalIndicators.rsi (Fin <$> repeat 50 250) 14 = Ok (repeat (Fin 0) 250).
Proof. split; vm_compute; reflexivity. Qed.

End Rsi.

(* ---- proofs ---- *)
(** ** The scan as a whole *)

Section Scan.

Lemma with_signals_same self : with_signals (signals self) self = self.
Proof. now destruct self. Qed.

Lemma with_signals_twice l l' self :
  with_signals l (with_signals l' self) = with_signals l self.
Proof. reflexivity. Qed.

Lemma emit_date cfg d p dict t s : emit cfg d p dict t = Some s -> date s = d.
Proof.
  unfold emit. destruct (min_signal_strength cfg <=? Z.abs (signal_score t))%Z;
    [|discriminate]. now intros [= <-].
Qed.

Lemma signal_at_date cfg df i s :
  signal_at cfg df i = Ok (Some s) -> date s = default 0%Z (index df !! i).
Proof.
  intros H. apply signal_at_step_score in H. destruct H as (t & p & dict & _ & Hs).
  symmetry in Hs. now apply emit_date in Hs.
Qed.

(** Whatever the outcome, the loop only appends to the signal list, in
    scan order. *)
Lemma for_each_scan_appends range : forall self r self',
  for_each range scan_step self = (r, self') ->
  exists new,
    self' = with_signals (signals self ++ new) self /\
    sublist (date <$> new) ((fun i => default 0%Z (index (data self) !! i)) <$> range).
Proof.
  induction range as [|i rest IH]; intros self r self' H.
  - injection H as <- <-. exists []. split.
    + rewrite app_nil_r. symmetry. apply with_signals_same.
    + constructor.
  - cbn [for_each] in H. rewrite M_bind_unfold in H. unfold scan_step at 1 in H.
    destruct (signal_at (config self) (data self) i) as [[s|]|e] eqn:Hsig.
    + apply IH in H. destruct H as (new & -> & Hsub).
      cbn [signals with_signals data] in *. exists (s :: new). split.
      * rewrite with_signals_twice. now rewrite <- app_assoc.
      * rewrite !fmap_cons. rewrite (signal_at_date _ _ _ _ Hsig).
        now apply sublist_skip.
    + apply IH in H. destruct H as (new & -> & Hsub). exists new. split; [reflexivity|].
      rewrite fmap_cons. now apply sublist_cons.
    + injection H as <- <-. exists []. split.
      * rewrite app_nil_r. symmetry. apply with_signals_same.
      * apply sublist_nil_l.
Qed.

Lemma generate_advanced_signals_run self :
  exists r new,
    generate_advanced_signals self = (r, with_signals new self) /\
    (forall l, r = Ok l -> l = new) /\
    sublist (date <$> new) (drop scan_start (index (data self))).
Proof.
  unfold generate_advanced_signals. rewrite M_bind_unfold. cbn [set_signals].
  rewrite M_bind_unfold. cbn [get_data with_signals data]. rewrite M_bind_unfold.
  destruct (for_each (seq scan_start (len (data self) - scan_start)) scan_step
              (with_signals [] self)) as [r self1] eqn:Hloop.
  apply for_each_scan_appends in Hloop. destruct Hloop as (new & -> & Hsub).
  cbn [signals with_signals data app] in *. rewrite with_signals_twice.
  assert (Hdrop : (fun i => default 0%Z (index (data self) !! i)) <$>
                    seq scan_start (len (data self) - scan_start)
                  = drop scan_start (index (data self))).
  { unfold len. apply list_eq. intros k.
    rewrite list_lookup_fmap, lookup_drop.
    destruct (decide (k < length (index (data self)) - scan_start)%nat) as [Hk|Hk].
    - rewrite lookup_seq_lt by exact Hk. cbn [fmap option_fmap option_map].
      destruct (lookup_lt_is_Some_2 (index (data self)) (scan_start + k)) as [z Hz]; [lia|].
      now rewrite Hz.
    - rewrite lookup_seq_ge by lia. cbn [fmap option_fmap option_map].
      symmetry. apply lookup_ge_None. lia. }
  rewrite Hdrop in Hsub.
  destruct r as [[]|e].
  - exists (Ok new), new. split; [reflexivity|]. split; [now intros l [= <-] | exact Hsub].
  - exists (Raise e), new. split; [reflexivity|]. split; [discriminate | exact Hsub].
Qed.

Lemma getitem_None (row : Row) name :
  row !! name = None -> getitem row name = Raise (KeyError name).
Proof. unfold getitem. now intros ->. Qed.

Lemma generate_after_with_signals l self :
  generate_advanced_signals (with_signals l self) = generate_advanced_signals self.
Proof. reflexivity. Qed.

(** X1: a scan writes nothing but the signal list, and it starts from an
    empty list: running it again on the object it left behind gives the
    same outcome and the same object, so repeated calls never accumulate
    signals. *)
Theorem scan_is_repeatable (self : ProfessionalStockAnalyzer) :
  let out := generate_advanced_signals self in
  data (snd out) = data self /\ config (snd out) = config self /\
  risk_metrics (snd out) = risk_metrics self /\
  generate_advanced_signals (snd out) = out.
Proof.
  destruct (generate_advanced_signals_run self) as (r & new & Hrun & _ & _).
  cbv zeta. rewrite Hrun. cbn [snd]. repeat split.
  rewrite generate_after_with_signals. exact Hrun.
Qed.

(** X2: with 50 rows or fewer the scan reads nothing and returns an empty
    list, whether or not the indicator columns exist. *)
Theorem scan_of_short_history_is_empty (self : ProfessionalStockAnalyzer) :
  (len (data self) <= scan_start)%nat ->
  generate_advanced_signals self = (Ok [], with_signals [] self).
Proof.
  intros Hlen. unfold generate_advanced_signals. rewrite M_bind_unfold.
  cbn [set_signals]. rewrite M_bind_unfold. cbn [get_data with_signals data].
  replace (len (data self) - scan_start)%nat with 0%nat by lia. reflexivity.
Qed.

Lemma scan_of_short_history_is_empty_witness :
  generate_advanced_signals short_analyzer = (Ok [], with_signals [] short_analyzer).
Proof.
  apply (scan_of_short_history_is_empty short_analyzer). vm_compute. lia.
Defined.

(** X3: with more than 50 rows and no RSI column (indicators not
    computed) the scan raises KeyError('RSI') at its first step and leaves
    an empty signal list. *)
Theorem scan_without_indicators_raises (self : ProfessionalStockAnalyzer) :
  (scan_start < len (data self))%nat ->
  columns (data self) !! "RSI" = None ->
  generate_advanced_signals self = (Raise (KeyError "RSI"), with_signals [] self).
Proof.
  intros Hlen Hrsi. unfold generate_advanced_signals. rewrite M_bind_unfold.
  cbn [set_signals]. rewrite M_bind_unfold. cbn [get_data with_signals data].
  destruct (len (data self) - scan_start)%nat as [|n] eqn:En; [lia|].
  cbn [seq for_each]. rewrite !M_bind_unfold. unfold scan_step at 1.
  cbn [config data with_signals]. unfold signal_at.
  rewrite (iloc_Ok (data self) scan_start) by exact Hlen. cbn [mbind result_bind].
  rewrite (iloc_Ok (data self) (scan_start - 1)) by (unfold scan_start in *; lia).
  cbn [mbind result_bind].
  rewrite (getitem_None _ "RSI") by (rewrite lookup_fmap, Hrsi; reflexivity).
  reflexivity.
Qed.

Lemma scan_without_indicators_raises_witness :
  generate_advanced_signals (fresh (history flat_closes flat_closes flat_closes)) =
  (Raise (KeyError "RSI"),
   with_signals [] (fresh (history flat_closes flat_closes flat_closes))).
Proof.
  apply (scan_without_indicators_raises
           (fresh (history flat_closes flat_closes flat_closes))).
  - vm_compute. lia.
  - vm_compute. reflexivity.
Defined.

(** X4: the signals a scan returns are dated by rows of the frame from row
    50 on, in the order of the frame and at most one per row. *)
Theorem signals_follow_the_index (self self' : ProfessionalStockAnalyzer)
  (sigs : list TradingSignal) :
  generate_advanced_signals self = (Ok sigs, self') ->
  sublist (date <$> sigs) (drop scan_start (index (data self))) /\
  (length sigs <= len (data self) - scan_start)%nat.
Proof.
  intros Hrun. destruct (generate_advanced_signals_run self) as (r & new & Hrun' & Hr & Hsub).
  rewrite Hrun in Hrun'. injection Hrun' as <- ->.
  rewrite (Hr sigs eq_refl). split; [exact Hsub|].
  apply sublist_length in Hsub. rewrite length_fmap, length_drop in Hsub. exact Hsub.
Qed.

Lemma signals_follow_the_index_witness :
  sublist (date <$> signals (snd (generate_advanced_signals flat_analyzer)))
          (drop scan_start (index (data flat_analyzer))) /\
  (length (signals (snd (generate_advanced_signals flat_analyzer)))
   <= len (data flat_analyzer) - scan_start)%nat.
Proof.
  apply (signals_follow_the_index flat_analyzer
           (snd (generate_advanced_signals flat_analyzer))).
  vm_compute. reflexivity.
Defined.

End Scan.

(* ---- proofs ---- *)
(** ** Strength buckets and reasons *)

Section Buckets.

Lemma half_le (m k : Z) : inject_Z m / 2 <= inject_Z k / 2 <-> (m <= k)%Z.
Proof.
  rewrite Zle_Qle. split; intros H.
  - apply Qmult_le_r with (z := / 2); [reflexivity | exact H].
  - apply Qmult_le_r with (z := / 2) in H; [exact H | reflexivity].
Qed.

(** X5: an emitted signal is never HOLD, it is BUY exactly when the score
    is positive, and its strength is WEAK for |score| up to 3, MODERATE
    for 4 and 5, STRONG from 6 on. *)
Theorem strength_follows_integer_score
  (cfg : Config) (d : Z) (p : fl) (dict : gmap string fl) (t : Tally)
  (s : TradingSignal) :
  emit cfg d p dict t = Some s ->
  signal_type s <> HOLD /\
  (signal_type s = BUY <-> (0 < signal_score t)%Z) /\
  (strength s = WEAK <-> (Z.abs (signal_score t) <= 3)%Z) /\
  (strength s = MODERATE <-> (4 <= Z.abs (signal_score t) <= 5)%Z) /\
  (strength s = STRONG <-> (6 <= Z.abs (signal_score t))%Z).
Proof.
  unfold emit. destruct (min_signal_strength cfg <=? Z.abs (signal_score t))%Z;
    [|discriminate].
  intros [= <-]. cbn [signal_type strength].
  set (a := Z.abs (signal_score t)).
  assert (Hw : fle (Fin (Qred (inject_Z (Z.min a 6) / 2))) (Fin 1.5) = true <-> (a <= 3)%Z).
  { rewrite fle_Fin, Qred_correct.
    assert (E : 1.5 == inject_Z 3 / 2) by reflexivity.
    rewrite E, half_le. lia. }
  assert (Hm : fle (Fin (Qred (inject_Z (Z.min a 6) / 2))) (Fin 2.5) = true <-> (a <= 5)%Z).
  { rewrite fle_Fin, Qred_correct.
    assert (E : 2.5 == inject_Z 5 / 2) by reflexivity.
    rewrite E, half_le. lia. }
  split; [destruct (0 <? signal_score t)%Z; discriminate|].
  split.
  { destruct (0 <? signal_score t)%Z eqn:E.
    - apply Z.ltb_lt in E. tauto.
    - apply Z.ltb_ge in E. split; [discriminate | lia]. }
  destruct (fle (Fin (Qred (inject_Z (Z.min a 6) / 2))) (Fin 1.5)).
  - pose proof (proj1 Hw eq_refl). repeat split; try discriminate; try lia; auto.
  - assert (Hgt : (3 < a)%Z).
    { destruct (Z_le_gt_dec a 3) as [Hle|Hgt]; [|lia].
      apply Hw in Hle. discriminate Hle. }
    destruct (fle (Fin (Qred (inject_Z (Z.min a 6) / 2))) (Fin 2.5)).
    + pose proof (proj1 Hm eq_refl). repeat split; try discriminate; try lia; auto.
    + assert (Hgt5 : (5 < a)%Z).
      { destruct (Z_le_gt_dec a 5) as [Hle|Hgt']; [|lia].
        apply Hm in Hle. discriminate Hle. }
      repeat split; try discriminate; try lia; auto.
Qed.

Lemma strength_follows_integer_score_witness :
  let t := {| signal_score := -4; fired := ["Death Cross"] |} in
  let s := {| date := 7; signal_type := SELL; strength := MODERATE; price := Fin 50;
              indicators := ∅; reasons := ["Death Cross"]; confidence := Fin (1 # 2) |} in
  signal_type s <> HOLD /\
  (signal_type s = BUY <-> (0 < signal_score t)%Z) /\
  (strength s = WEAK <-> (Z.abs (signal_score t) <= 3)%Z) /\
  (strength s = MODERATE <-> (4 <= Z.abs (signal_score t) <= 5)%Z) /\
  (strength s = STRONG <-> (6 <= Z.abs (signal_score t))%Z).
Proof.
  intros t s.
  apply (strength_follows_integer_score default_config 7 (Fin 50) ∅ t s).
  reflexivity.
Defined.




End Buckets.

(** ** The risk snapshot *)

Section RiskSnapshot.
Context `{Libm}.

Lemma calculate_risk_metrics_run
  (self : ProfessionalStockAnalyzer) (account_balance : fl)
  (close returns atr_col : Series) (price atr : fl) :
  empty (data self) = false ->
  columns (data self) !! "Close" = Some close -> last close = Some price ->
  columns (data self) !! "Returns" = Some returns ->
  columns (data self) !! "ATR" = Some atr_col -> last atr_col = Some atr ->
  calculate_risk_metrics account_balance self =
  (Ok (Some (snapshot_of price atr returns close account_balance (config self))),
   with_risk_metrics
     (Some (snapshot_of price atr returns close account_balance (config self))) self).
Proof.
  intros Hne Hclose Hprice Hret Hcol Hlast. unfold calculate_risk_metrics.
  rewrite M_bind_unfold. cbn [get_data]. rewrite Hne.
  rewrite (bind_column "Close" close) by exact Hclose.
  erewrite bind_lift_Ok by (apply iloc_last_Some; exact Hprice).
  rewrite M_bind_unfold. rewrite (has_column_Some _ _ _ Hcol).
  rewrite (bind_column "ATR" atr_col) by exact Hcol.
  unfold lift at 1. rewrite (iloc_last_Some _ _ Hlast).
  rewrite (bind_column "Returns" returns) by exact Hret.
  rewrite bind_get_config.
  rewrite (bind_column "Close" close) by exact Hclose.
  reflexivity.
Qed.

(** X7: on an empty frame the method returns None and writes nothing. *)
Theorem risk_metrics_of_empty_frame
  (self : ProfessionalStockAnalyzer) (account_balance : fl) :
  empty (data self) = true ->
  calculate_risk_metrics account_balance self = (Ok None, self).
Proof.
  intros He. unfold calculate_risk_metrics. rewrite M_bind_unfold.
  cbn [get_data]. now rewrite He.
Qed.


End RiskSnapshot.

Lemma risk_metrics_of_empty_frame_witness :
  @calculate_risk_metrics approx_libm (Fin 100000) (fresh empty_frame)
  = (Ok None, fresh empty_frame).
Proof.
  apply (@risk_metrics_of_empty_frame approx_libm (fresh empty_frame) (Fin 100000)).
  reflexivity.
Defined.

Section RiskLevels.
Context `{Libm}.




(** X9: when the last ATR is 0 (a flat market) nothing is raised: stop-loss
    and take-profit both equal the last close, the risk-reward ratio is
    NaN, and with a positive amount at risk the position size is the cap
    of 0.1 times the balance. *)
Theorem zero_atr_snapshot
  (self : ProfessionalStockAnalyzer)
  (close returns atr_col : Series) (p a b : Q) :
  empty (data self) = false ->
  columns (data self) !! "Close" = Some close -> last close = Some (Fin p) ->
  columns (data self) !! "Returns" = Some returns ->
  columns (data self) !! "ATR" = Some atr_col -> last atr_col = Some (Fin a) ->
  a == 0 -> 0 < p -> 0 < b * risk_per_trade (config self) ->
  exists m,
    calculate_risk_metrics (Fin b) self =
      (Ok (Some m), with_risk_metrics (Some m) self) /\
    stop_loss m = Fin (Qred p) /\ take_profit m = Fin (Qred p) /\
    risk_reward_ratio m = NaN /\
    position_size m = Fin (Qred (b * 0.1)).
Proof.
  intros Hne Hclose Hprice Hret Hcol Hlast Ha Hp Hbr.
  eexists. split.
  { apply (calculate_risk_metrics_run self (Fin b) close returns atr_col
             (Fin p) (Fin a)); assumption. }
  unfold snapshot_of.
  cbn [stop_loss take_profit risk_reward_ratio position_size fmul fsub fadd fabs].
  assert (H2 : Qred (2 * a) = 0) by (apply Qred_zero; rewrite Ha; ring).
  assert (H3 : Qred (3 * a) = 0) by (apply Qred_zero; rewrite Ha; ring).
  rewrite H2, H3.
  assert (Hm : Qred (p - 0) = Qred p) by (apply Qred_complete; ring).
  assert (Hq : Qred (p + 0) = Qred p) by (apply Qred_complete; ring).
  rewrite Hm, Hq.
  assert (Hz : Qred (Qabs (Qred (p - Qred p))) = 0).
  { apply Qred_zero. rewrite !Qred_correct.
    setoid_replace (p - p) with 0 using relation Qeq by ring. reflexivity. }
  assert (Hz' : Qred (Qabs (Qred (Qred p - p))) = 0).
  { apply Qred_zero. rewrite !Qred_correct.
    setoid_replace (p - p) with 0 using relation Qeq by ring. reflexivity. }
  rewrite Hz, Hz'.
  split; [reflexivity|]. split; [reflexivity|]. split; [reflexivity|].
  rewrite (fdiv_Fin 0 p) by lra.
  assert (H0p : Qred (0 / p) = 0) by (apply Qred_zero; field; lra).
  rewrite H0p. unfold calculate_position_size. cbn [fmul].
  assert (Hpos : 0 < Qred (b * risk_per_trade (config self)))
    by (rewrite Qred_correct; exact Hbr).
  assert (Hinf : fdiv (Fin (Qred (b * risk_per_trade (config self)))) (Fin 0) = PInf).
  { cbn [fdiv]. change (Qeq_bool 0 0) with true. cbv iota. cbn [fsign].
    destruct (Qred (b * risk_per_trade (config self))) as [n dn] eqn:E.
    unfold Qlt in Hpos. cbn in Hpos. cbn [Qnum].
    destruct n; cbn; try lia; reflexivity. }
  rewrite Hinf. reflexivity.
Qed.


End RiskLevels.


Lemma zero_atr_snapshot_witness :
  exists m,
    @calculate_risk_metrics approx_libm (Fin 100000) flat_analyzer =
      (Ok (Some m), with_risk_metrics (Some m) flat_analyzer) /\
    stop_loss m = Fin (Qred 50) /\ take_profit m = Fin (Qred 50) /\
    risk_reward_ratio m = NaN /\
    position_size m = Fin (Qred (100000 * 0.1)).
Proof.
  apply (@zero_atr_snapshot approx_libm flat_analyzer
           (repeat (Fin 50) 55) (NaN :: repeat (Fin 0) 54)
           (repeat NaN 14 ++ repeat (Fin 0) 41) 50 0 100000).
  - vm_compute. reflexivity.
  - vm_compute. reflexivity.
  - reflexivity.
  - vm_compute. reflexivity.
  - vm_compute. reflexivity.
  - reflexivity.
  - reflexivity.
  - reflexivity.
  - vm_compute. reflexivity.
Defined.

(* ---- proofs ---- *)
(** ** Size of a drawdown *)

Section DrawdownRange.
Import RiskManager.





End DrawdownRange.

(** ** Exponential averages of a constant series *)

Section FlatEma.

Lemma feqb_refl_Fin c : feqb (Fin c) (Fin c) = true.
Proof. unfold feqb. cbn [fcmp]. now rewrite (proj1 (Qeq_alt c c) (Qeq_refl c)). Qed.

Lemma ewm_loop_constant factor (c : Q) (n : nat) : forall old_wt,
  ewm_loop factor (Fin c) old_wt (repeat (Fin c) n) = repeat (Fin c) n.
Proof.
  induction n as [|n IH]; intros old_wt; [reflexivity|].
  cbn [repeat ewm_loop is_nan negb]. rewrite feqb_refl_Fin. cbn [negb].
  now rewrite IH.
Qed.

Lemma ewm_adjusted_constant alpha (c : Q) (n : nat) :
  ewm_adjusted alpha (repeat (Fin c) n) = repeat (Fin c) n.
Proof.
  destruct n as [|n]; [reflexivity|]. cbn [repeat ewm_adjusted].
  now rewrite ewm_loop_constant.
Qed.

Lemma zip_fsub_constant (c : Q) (n : nat) :
  binop fsub (repeat (Fin c) n) (repeat (Fin c) n) = repeat (Fin 0) n.
Proof.
  unfold binop. induction n as [|n IH]; [reflexivity|].
  cbn [repeat zip_with fsub]. rewrite IH. f_equal. f_equal.
  apply Qred_zero. ring.
Qed.

(** X11: on a constant price series the MACD line, its signal line and the
    histogram are identically 0, for any spans the EWM accepts; no MACD
    crossover can fire on flat prices. *)
Theorem macd_of_constant_prices_is_zero (c : Q) (n : nat) (fast slow signal : Z) :
  (1 <= fast)%Z -> (1 <= slow)%Z -> (1 <= signal)%Z ->
  TechnicalIndicators.macd (repeat (Fin c) n) fast slow signal =
  Ok (repeat (Fin 0) n, repeat (Fin 0) n, repeat (Fin 0) n).
Proof.
  intros Hf Hs Hg. unfold TechnicalIndicators.macd.
  rewrite !ewm_mean_Ok by assumption. cbn [mbind result_bind].
  rewrite !ewm_adjusted_constant, zip_fsub_constant.
  rewrite ewm_mean_Ok by assumption. cbn [mbind result_bind].
  rewrite ewm_adjusted_constant. change 0 with (0 : Q).
  now rewrite zip_fsub_constant.
Qed.

Lemma macd_of_constant_prices_is_zero_witness :
  TechnicalIndicators.macd (repeat (Fin 50) 250) 12 26 9 =
  Ok (repeat (Fin 0) 250, repeat (Fin 0) 250, repeat (Fin 0) 250).
Proof.
  apply (macd_of_constant_prices_is_zero 50 250 12 26 9); lia.
Defined.

End FlatEma.

(** ** Range of the RSI *)

Section RsiRange.











End RsiRange.

(* ---- proofs ---- *)
(** ** Lengths of the indicator series *)

Section Lengths.
Context `{Libm}.

Lemma rolling_checked_length w mp agg (s r : Series) :
  rolling_checked w mp agg s = Ok r -> length r = length s.
Proof.
  unfold rolling_checked. intros Hr. inv_bind Hr.
  destruct (w <? 0)%Z; [discriminate Hr|]. injection Hr as <-.
  apply length_rolling.
Qed.

Lemma ewm_loop_length factor (s : Series) : forall weighted old_wt,
  length (ewm_loop factor weighted old_wt s) = length s.
Proof.
  induction s as [|x t IH]; intros weighted old_wt; [reflexivity|].
  cbn [ewm_loop].
  destruct (negb (is_nan weighted)), (negb (is_nan x)); cbn [length]; now rewrite IH.
Qed.

Lemma ewm_mean_length span (s r : Series) :
  ewm_mean span s = Ok r -> length r = length s.
Proof.
  unfold ewm_mean. destruct (span <? 1)%Z; [discriminate|]. intros [= <-].
  destruct s as [|x t]; [reflexivity|]. cbn [ewm_adjusted length].
  now rewrite ewm_loop_length.
Qed.

Lemma length_binop f (a b : Series) :
  length a = length b -> length (binop f a b) = length b.
Proof. intros E. unfold binop. rewrite length_zip_with. lia. Qed.

Lemma length_shift (s : Series) : length (shift s) = length s.
Proof.
  destruct s as [|x t]; [reflexivity|]. unfold shift. cbn [length]. f_equal.
  revert x. induction t as [|y t IH]; intros x; [reflexivity|].
  change (removelast (x :: y :: t)) with (x :: removelast (y :: t)).
  cbn [length]. now rewrite IH.
Qed.

(** X13: every indicator returns series exactly as long as its input
    (high, low and close being of one length), whatever the windows. *)
Theorem indicators_keep_the_length (high low close : Series) :
  length high = length close -> length low = length close ->
  (forall w r, TechnicalIndicators.rsi close w = Ok r -> length r = length close) /\
  (forall fast slow signal m sg h,
     TechnicalIndicators.macd close fast slow signal = Ok (m, sg, h) ->
     length m = length close /\ length sg = length close /\ length h = length close) /\
  (forall w k upper middle lower,
     TechnicalIndicators.bollinger_bands close w k = Ok (upper, middle, lower) ->
     length upper = length close /\ length middle = length close /\
     length lower = length close) /\
  (forall kw dw k d,
     TechnicalIndicators.stochastic high low close kw dw = Ok (k, d) ->
     length k = length close /\ length d = length close) /\
  (forall w r, TechnicalIndicators.williams_r high low close w = Ok r ->
               length r = length close) /\
  (forall w r, TechnicalIndicators.atr high low close w = Ok r ->
               length r = length close) /\
  (forall w r, TechnicalIndicators.cci high low close w = Ok r ->
               length r = length close).
Proof.
  intros Hh Hl. repeat split.
  - intros w r Hr. unfold TechnicalIndicators.rsi, rolling_mean in Hr.
    inv_bind Hr. inv_bind Hr. injection Hr as <-.
    apply rolling_checked_length in Hv, Hv0.
    unfold where_ in Hv, Hv0. rewrite !length_fmap, length_diff in Hv.
    rewrite !length_fmap, length_diff in Hv0.
    rewrite length_fmap. unfold replace. rewrite length_binop; rewrite ?length_fmap; congruence.
  - unfold TechnicalIndicators.macd in H0. inv_bind H0. inv_bind H0. inv_bind H0.
    injection H0 as <- <- <-. apply ewm_mean_length in Hv, Hv0.
    rewrite length_binop; congruence.
  - unfold TechnicalIndicators.macd in H0. inv_bind H0. inv_bind H0. inv_bind H0.
    injection H0 as <- <- <-. apply ewm_mean_length in Hv, Hv0, Hv1.
    rewrite Hv1. rewrite length_binop; congruence.
  - unfold TechnicalIndicators.macd in H0. inv_bind H0. inv_bind H0. inv_bind H0.
    injection H0 as <- <- <-. apply ewm_mean_length in Hv, Hv0, Hv1.
    rewrite length_binop; rewrite ?Hv1; rewrite ?length_binop; congruence.
  - unfold TechnicalIndicators.bollinger_bands, rolling_mean, rolling_std in H0.
    inv_bind H0. inv_bind H0. injection H0 as <- <- <-.
    apply rolling_checked_length in Hv, Hv0.
    rewrite length_binop; rewrite ?length_fmap; congruence.
  - unfold TechnicalIndicators.bollinger_bands, rolling_mean, rolling_std in H0.
    inv_bind H0. inv_bind H0. injection H0 as <- <- <-.
    now apply rolling_checked_length in Hv.
  - unfold TechnicalIndicators.bollinger_bands, rolling_mean, rolling_std in H0.
    inv_bind H0. inv_bind H0. injection H0 as <- <- <-.
    apply rolling_checked_length in Hv, Hv0.
    rewrite length_binop; rewrite ?length_fmap; congruence.
  - unfold TechnicalIndicators.stochastic, rolling_mean, rolling_min, rolling_max in H0.
    inv_bind H0. inv_bind H0. inv_bind H0. injection H0 as <- <-.
    apply rolling_checked_length in Hv, Hv0.
    assert (E : length (binop fsub v0 v) = length close)
      by (rewrite length_binop; congruence).
    rewrite length_binop; [exact E|]. unfold TechnicalIndicators.scale.
    rewrite length_fmap, length_binop; congruence.
  - unfold TechnicalIndicators.stochastic, rolling_mean, rolling_min, rolling_max in H0.
    inv_bind H0. inv_bind H0. inv_bind H0. injection H0 as <- <-.
    apply rolling_checked_length in Hv, Hv0, Hv1. rewrite Hv1.
    assert (E : length (binop fsub v0 v) = length close)
      by (rewrite length_binop; congruence).
    rewrite length_binop; [exact E|]. unfold TechnicalIndicators.scale.
    rewrite length_fmap, length_binop; congruence.
  - intros w r Hr.
    unfold TechnicalIndicators.williams_r, rolling_min, rolling_max in Hr.
    inv_bind Hr. inv_bind Hr. injection Hr as <-.
    apply rolling_checked_length in Hv, Hv0.
    assert (E : length (binop fsub v v0) = length close)
      by (rewrite length_binop; congruence).
    rewrite length_binop; [exact E|]. unfold TechnicalIndicators.scale.
    rewrite length_fmap, length_binop; congruence.
  - intros w r Hr. unfold TechnicalIndicators.atr, rolling_mean in Hr.
    apply rolling_checked_length in Hr. rewrite Hr.
    assert (Es : length (shift close) = length close) by apply length_shift.
    rewrite length_binop; rewrite ?length_binop; rewrite ?length_fmap;
      rewrite ?length_binop; congruence.
  - intros w r Hr. unfold TechnicalIndicators.cci, rolling_mean in Hr.
    inv_bind Hr. inv_bind Hr. injection Hr as <-.
    apply rolling_checked_length in Hv, Hv0.
    assert (Et : length ((fun x => fdiv x (Fin 3)) <$>
                           binop fadd (binop fadd high low) close) = length close).
    { rewrite length_fmap, length_binop; [reflexivity|].
      rewrite length_binop; congruence. }
    unfold TechnicalIndicators.scale.
    rewrite length_binop; rewrite ?length_fmap; rewrite ?length_binop; congruence.
Qed.

End Lengths.

Lemma indicators_keep_the_length_witness :
  let high := [Fin 3; Fin 4; Fin 5] in
  let low := [Fin 1; Fin 2; Fin 3] in
  let close := [Fin 2; Fin 3; Fin 4] in
  (forall w r, TechnicalIndicators.rsi close w = Ok r -> length r = length close) /\
  (forall fast slow signal m sg h,
     TechnicalIndicators.macd close fast slow signal = Ok (m, sg, h) ->
     length m = length close /\ length sg = length close /\ length h = length close) /\
  (forall w k upper middle lower,
     @TechnicalIndicators.bollinger_bands approx_libm close w k = Ok (upper, middle, lower) ->
     length upper = length close /\ length middle = length close /\
     length lower = length close) /\
  (forall kw dw k d,
     TechnicalIndicators.stochastic high low close kw dw = Ok (k, d) ->
     length k = length close /\ length d = length close) /\
  (forall w r, TechnicalIndicators.williams_r high low close w = Ok r ->
               length r = length close) /\
  (forall w r, TechnicalIndicators.atr high low close w = Ok r ->
               length r = length close) /\
  (forall w r, TechnicalIndicators.cci high low close w = Ok r ->
               length r = length close).
Proof.
  intros high low close.
  apply (@indicators_keep_the_length approx_libm high low close); reflexivity.
Defined.

(** ** Warm-up of the simple moving averages *)

Section Warmup.

Lemma rolling_full_window_finite (w : nat) (s : Series) (i : nat) :
  (1 <= w)%nat -> all_finite s -> (i < length s)%nat -> (w <= S i)%nat ->
  exists q, rolling w w mean s !! i = Some (Fin q).
Proof.
  intros Hw Hs Hi Hfull. unfold rolling. rewrite list_lookup_fmap.
  rewrite lookup_seq_lt by exact Hi. cbn [fmap option_fmap option_map Nat.add].
  assert (Hwin : all_finite (window_at w s i)).
  { unfold window_at, all_finite. apply Forall_drop, Forall_take. exact Hs. }
  assert (Hlen : length (window_at w s i) = w).
  { unfold window_at. rewrite length_drop, length_take. lia. }
  rewrite observations_finite by exact Hwin. rewrite Hlen.
  assert (E1 : (w <? w)%nat = false) by (apply Nat.ltb_ge; lia).
  assert (E2 : (w =? 0)%nat = false) by (apply Nat.eqb_neq; lia).
  rewrite E1, E2. cbn [orb].
  destruct (mean_finite (window_at w s i) Hwin) as [q Hq].
  { intros E. rewrite E in Hlen. cbn in Hlen. lia. }
  exists q. now rewrite Hq.
Qed.

Lemma all_finite_fmap_Fin (l : list Q) : all_finite (Fin <$> l).
Proof. unfold all_finite. apply Forall_fmap, Forall_forall. reflexivity. Qed.

(** X14: with finite closes, a simple moving average of window w >= 1
    (as used for SMA_10, SMA_20, SMA_50, SMA_200 and the Bollinger middle
    band) is undefined on the first w-1 rows and a finite number on every
    row from w-1 on. *)
Theorem sma_is_defined_from_row_w_minus_1
  (closes : list Q) (w : Z) (r : Series) (i : nat) :
  (1 <= w)%Z -> rolling_mean w None (Fin <$> closes) = Ok r ->
  (i < length closes)%nat ->
  ((Z.of_nat i < w - 1)%Z -> r !! i = Some NaN) /\
  ((w - 1 <= Z.of_nat i)%Z -> exists q, r !! i = Some (Fin q)).
Proof.
  intros Hw Hr Hi. unfold rolling_mean in Hr.
  rewrite rolling_checked_None in Hr by lia. injection Hr as <-. split.
  - intros Hlt. apply rolling_warmup; [now rewrite length_fmap | lia].
  - intros Hge. apply rolling_full_window_finite.
    + lia.
    + apply all_finite_fmap_Fin.
    + now rewrite length_fmap.
    + lia.
Qed.

Lemma sma_is_defined_from_row_w_minus_1_witness :
  ((Z.of_nat 1 < 3 - 1)%Z -> [NaN; NaN; Fin 2; Fin 3] !! 1%nat = Some NaN) /\
  ((3 - 1 <= Z.of_nat 1)%Z -> exists q, [NaN; NaN; Fin 2; Fin 3] !! 1%nat = Some (Fin q)).
Proof.
  apply (sma_is_defined_from_row_w_minus_1 [1; 2; 3; 4] 3 [NaN; NaN; Fin 2; Fin 3] 1).
  - lia.
  - vm_compute. reflexivity.
  - simpl. lia.
Defined.

End Warmup.
